(** * ransomware_scraper: the request executor and the endpoint catalog

    A shallow embedding of [ransomware_client.py] and of the tool adapter
    [mcp_server_ransomware.py].  Every client function builds an endpoint path
    and a query mapping, hands them to [_get], and [_get] performs one call of
    [requests.get].  The network is outside the program: an operation is a
    value of the type [action], which either finishes, raises, or asks for one
    HTTP GET and continues with the reply; [run] plays an action against a
    network and records the requests that were dispatched.

    Conventions.
    - A Python [str] is a Rocq [string] (its UTF-8 bytes); f-string
      interpolation of strings is concatenation.
    - The outgoing request is the call of [requests.get] as the client makes
      it: the URL text, the headers, the [params] mapping and the timeout.
      Percent-encoding and the parsing of the URL text are the HTTP library's
      and are not modelled.
    - A Python [dict] literal is an association list in insertion order, which
      is the order in which [requests] writes the query string. *)

From Stdlib Require Import ZArith List String Ascii Bool Lia DecimalString.
From Stdlib Require Import DecimalN.
Import ListNotations.
Local Open Scope string_scope.
Local Open Scope Z_scope.

(** ** The pieces of the Python runtime the client relies on *)

Module Py.

(** [str.lower] and [str.upper] on a string of ASCII characters change the
    letters A-Z, respectively a-z, and nothing else. *)
Definition ascii_lower_char (c : ascii) : ascii :=
  let n := nat_of_ascii c in
  if ((65 <=? n) && (n <=? 90))%nat then ascii_of_nat (n + 32) else c.

Definition ascii_upper_char (c : ascii) : ascii :=
  let n := nat_of_ascii c in
  if ((97 <=? n) && (n <=? 122))%nat then ascii_of_nat (n - 32) else c.

Fixpoint map_chars (f : ascii -> ascii) (s : string) : string :=
  match s with
  | EmptyString => EmptyString
  | String c rest => String (f c) (map_chars f rest)
  end.

Fixpoint is_ascii (s : string) : bool :=
  match s with
  | EmptyString => true
  | String c rest => (nat_of_ascii c <? 128)%nat && is_ascii rest
  end.

(** Truthiness of an [Optional[str]]: [None] and the empty string are false. *)
Definition truthy (o : option string) : bool :=
  match o with
  | None => false
  | Some EmptyString => false
  | Some (String _ _) => true
  end.

(** [str(n)] for an [int]. *)
Definition str_of_int (n : Z) : string := NilZero.string_of_int (Z.to_int n).

Fixpoint zeros (k : nat) : string :=
  match k with
  | O => EmptyString
  | S k' => String "0" (zeros k')
  end.

(** The format specification [0{width}d]: the sign first, then zeros up to
    the width, then all the digits.  A value that needs more room than the
    width is written in full. *)
Definition format_0d (width : nat) (n : Z) : string :=
  let sign := if n <? 0 then "-" else "" in
  let digits := NilZero.string_of_uint (N.to_uint (Z.abs_N n)) in
  sign ++ zeros (width - String.length sign - String.length digits) ++ digits.

(** [f"{month:02d}"] *)
Definition format_02d (n : Z) : string := format_0d 2 n.

(** [repr] of a string without quotes or escapes in it, and of a set given in
    its iteration order. *)
Definition repr_str (s : string) : string := "'" ++ s ++ "'".

Definition repr_set (elems : list string) : string :=
  "{" ++ String.concat ", " (map repr_str elems) ++ "}".

(** Substring and suffix tests, used to read requests. *)
Fixpoint contains (needle hay : string) : bool :=
  String.prefix needle hay ||
  match hay with
  | EmptyString => false
  | String _ rest => contains needle rest
  end.

Fixpoint ends_with (suffix s : string) : bool :=
  String.eqb suffix s ||
  match s with
  | EmptyString => false
  | String _ rest => ends_with suffix rest
  end.

End Py.

(** ** The surface of the [requests] library *)

Module Http.

(** A value of a [params] mapping: the client passes strings, integers and
    optional strings. *)
Inductive pyval : Type :=
| PNone
| PStr (s : string)
| PInt (n : Z).

Definition of_optional (o : option string) : pyval :=
  match o with
  | None => PNone
  | Some s => PStr s
  end.

Definition str (v : pyval) : string :=
  match v with
  | PNone => "None"
  | PStr s => s
  | PInt n => Py.str_of_int n
  end.

Definition is_none (v : pyval) : bool :=
  match v with
  | PNone => true
  | _ => false
  end.

(** The arguments of one [requests.get(url, headers=, params=, timeout=)]. *)
Record Request : Type := mkRequest {
  url : string;
  headers : list (string * string);
  params : option (list (string * pyval));
  timeout : Z
}.

Record Response : Type := mkResponse {
  status_code : Z;
  text : string
}.

(** A decoded JSON value. Numbers keep their literal. *)
Unset Elimination Schemes.
Inductive json : Type :=
| JNull
| JBool (b : bool)
| JNumber (literal : string)
| JString (s : string)
| JArray (items : list json)
| JObject (members : list (string * json)).
Set Elimination Schemes.

(** The exceptions that reach the caller.  [RequestException] stands for the
    transport failures of [requests.get] (connection, DNS, timeout);
    [HTTPError] is raised by [raise_for_status] and carries the response;
    [ValueError] carries its message. *)
Inductive exn : Type :=
| RequestException (cause : string)
| HTTPError (status : Z) (body : string)
| ValueError (msg : string).

(** What the network does with a request. *)
Inductive Outcome : Type :=
| Failed (cause : string)
| Reply (r : Response).

Definition Network : Type := Request -> Outcome.

(** Programs that talk to the network. *)
Inductive action (A : Type) : Type :=
| Return (a : A)
| Raise (e : exn)
| Get (req : Request) (k : Response -> action A).

Arguments Return {A} a.
Arguments Raise {A} e.
Arguments Get {A} req k.

Fixpoint bind {A B : Type} (m : action A) (f : A -> action B) : action B :=
  match m with
  | Return a => f a
  | Raise e => Raise e
  | Get req k => Get req (fun r => bind (k r) f)
  end.

Notation "x <- m ;; k" := (bind m (fun x => k))
  (at level 61, m at next level, right associativity).
Notation "m ;; k" := (bind m (fun _ => k))
  (at level 61, right associativity).

(** [run net m] is the list of requests dispatched, in order, and the value
    returned or the exception raised. *)
Fixpoint run {A : Type} (net : Network) (m : action A) : list Request * (exn + A) :=
  match m with
  | Return a => ([], inr a)
  | Raise e => ([], inl e)
  | Get req k =>
      match net req with
      | Failed cause => ([req], inl (RequestException cause))
      | Reply r => let (sent, res) := run net (k r) in (req :: sent, res)
      end
  end.

Definition dispatched {A : Type} (net : Network) (m : action A) : list Request :=
  fst (run net m).

Definition result {A : Type} (net : Network) (m : action A) : exn + A :=
  snd (run net m).

(** One call of [requests.get].  The request recorded is the call, with the
    arguments the client hands to the library; the outcome is what the call
    returns or raises.  What the library does inside the call, such as
    refusing a URL before anything is sent or following a redirect, is not
    modelled. *)
Definition requests_get (url : string) (headers : list (string * string))
    (params : option (list (string * pyval))) (timeout : Z) : action Response :=
  Get (mkRequest url headers params timeout) Return.

(** The calls of [requests.get] that an action makes, in order, each as the
    request it hands to the library. *)
Definition calls {A : Type} (net : Network) (m : action A) : list Request :=
  fst (run net m).

(** [Response.raise_for_status]: an [HTTPError] for a client error (4xx) or a
    server error (5xx), nothing for any other status. *)
Definition raise_for_status (r : Response) : action unit :=
  if (400 <=? status_code r) && (status_code r <? 600)
  then Raise (HTTPError (status_code r) (text r))
  else Return tt.

(** The query of a request as it is written on the wire: one key=value pair
    per entry of [params] whose value is not [None], values through [str]. *)
Definition query_pairs (r : Request) : list (string * string) :=
  match params r with
  | None => []
  | Some d =>
      map (fun kv => (fst kv, str (snd kv)))
          (filter (fun kv => negb (is_none (snd kv))) d)
  end.

Definition query_keys (r : Request) : list string := map fst (query_pairs r).

Definition query_value (key : string) (r : Request) : option string :=
  option_map snd (find (fun kv => String.eqb key (fst kv)) (query_pairs r)).

(** Does the text [s] appear in the URL or as a query value of the request? *)
Definition appears_in (s : string) (r : Request) : bool :=
  Py.contains s (url r) || existsb (fun kv => String.eqb s (snd kv)) (query_pairs r).

End Http.

(** ** What the process is given from outside

    The client does not contain the JSON decoder behind [Response.json], the
    Unicode case tables behind [str.lower] and [str.upper], the hash seed that
    fixes the iteration order of a set literal, or the credential read from
    the environment at start-up.  They are the parameters of the model. *)

Class Runtime : Type := {
  (** [Response.json()] on a body: [None] when it raises [ValueError]. *)
  json_loads : string -> option Http.json;
  (** Case conversion of a string that has a non-ASCII character. *)
  unicode_lower : string -> string;
  unicode_upper : string -> string;
  (** Whether "discovered" comes before "attacked" when the set literal
      [{"discovered", "attacked"}] is iterated. *)
  discovered_first : bool;
  (** [API_KEY = os.getenv("API_KEY")], checked against [None] at import. *)
  API_KEY : string
}.

(** ** ransomware_client.py *)

Module Client.
Import Http.

Section WithRuntime.
Context {rt : Runtime}.

Definition lower (s : string) : string :=
  if Py.is_ascii s then Py.map_chars Py.ascii_lower_char s else unicode_lower s.

Definition upper (s : string) : string :=
  if Py.is_ascii s then Py.map_chars Py.ascii_upper_char s else unicode_upper s.

Definition BASE_URL : string := "https://api-pro.ransomware.live".

Definition _get (endpoint api_key : string)
    (params : option (list (string * pyval))) : action json :=
  let headers := [("Accept", "application/json"); ("X-API-KEY", api_key)] in
  response <- requests_get (BASE_URL ++ endpoint) headers params 10 ;;
  raise_for_status response ;;
  match json_loads (text response) with
  | Some v => Return v
  | None => Raise (ValueError ("Invalid JSON response: " ++ text response))
  end.

(** The default of [url] is [f"{BASE_URL}/8k"]. *)
Definition fetch_ransomware_data_default_url : string := BASE_URL ++ "/8k".

Definition fetch_ransomware_data (api_key url : string) : action json :=
  let headers := [("Accept", "application/json"); ("X-API-KEY", api_key)] in
  response <- requests_get url headers None 10 ;;
  raise_for_status response ;;
  match json_loads (text response) with
  | Some v => Return v
  | None => Raise (ValueError ("Invalid JSON response: " ++ text response))
  end.

Definition fetch_csirt_data (country_code api_key : string) : action json :=
  _get ("/csirt/" ++ upper country_code) api_key None.

Definition fetch_ransomware_groups (api_key : string) : action json :=
  _get "/groups" api_key None.

Definition fetch_group_data (group_name api_key : string) : action json :=
  _get ("/groups/" ++ lower group_name) api_key None.

Definition fetch_iocs (api_key : string) (ioc_type : option string) : action json :=
  let endpoint :=
    if Py.truthy ioc_type then "/iocs/" ++ str (of_optional ioc_type)
    else "/iocs" in
  _get endpoint api_key None.

Definition fetch_group_iocs (group api_key : string) (ioc_type : option string)
    : action json :=
  let params :=
    if Py.truthy ioc_type then Some [("type", of_optional ioc_type)]
    else None in
  _get ("/iocs/" ++ group) api_key params.

Definition get_akira_iocs (api_key group_name : string) : action json :=
  let params := [("group_name", PStr group_name)] in
  _get "/iocs/akira" api_key (Some params).

Definition fetch_sectors (api_key : string) : action json :=
  _get "/listsectors" api_key None.

Definition fetch_negotiations (api_key : string) : action json :=
  _get "/negotiations" api_key None.

Definition fetch_negotiation_group_chats (group api_key : string) : action json :=
  _get ("/negotiations/" ++ group) api_key None.

Definition fetch_negotiation_chat_detail (group chat_id api_key : string)
    : action json :=
  _get ("/negotiations/" ++ group ++ "/" ++ chat_id) api_key None.

Definition fetch_press_releases (api_key : string) (year month : Z)
    (country : string) : action json :=
  let params := [("year", PInt year);
                 ("month", PStr (Py.format_02d month));
                 ("country", PStr country)] in
  _get "/press/all" api_key (Some params).

Definition fetch_recent_press (api_key country : string) : action json :=
  let params := [("country", PStr country)] in
  _get "/press/recent" api_key (Some params).

Definition fetch_victims (api_key group sector country : string)
    (year month : Z) : action json :=
  let params := [("group", PStr group);
                 ("sector", PStr sector);
                 ("country", PStr country);
                 ("year", PInt year);
                 ("month", PStr (Py.format_02d month))] in
  _get "/victims/" api_key (Some params).

(** The set literal [{"discovered", "attacked"}], in its iteration order. *)
Definition valid_orders : list string :=
  if discovered_first then ["discovered"; "attacked"]
  else ["attacked"; "discovered"].

Definition set_mem (x : string) (s : list string) : bool :=
  existsb (String.eqb x) s.

(** The module defines [fetch_recent_victims] and [fetch_all_victims] twice;
    the later [def] rebinds the name.  [_first] is the earlier one. *)
Definition fetch_recent_victims_first (api_key order : string) : action json :=
  if negb (set_mem order valid_orders)
  then Raise (ValueError ("Invalid order value: " ++ order
                          ++ ". Must be one of " ++ Py.repr_set valid_orders ++ "."))
  else
    let params := [("order", PStr order)] in
    _get "/victims/recent" api_key (Some params).

Definition search_victims (api_key group sector country : string) : action json :=
  let params := [("group", PStr group);
                 ("sector", PStr sector);
                 ("country", PStr country)] in
  _get "/victims/search" api_key (Some params).

Definition fetch_all_victims_first (api_key : string) : action json :=
  _get "/victims/search" api_key (Some []).

Definition fetch_recent_victims (api_key order : string) : action json :=
  if negb (set_mem order valid_orders)
  then Raise (ValueError ("Invalid order value: " ++ order
                          ++ ". Must be one of " ++ Py.repr_set valid_orders ++ "."))
  else
    let params := [("order", PStr order)] in
    _get "/victims/recent" api_key (Some params).

Definition fetch_all_victims (api_key : string) : action json :=
  _get "/victims/search" api_key (Some []).

Definition fetch_ransomnote_groups (api_key : string) : action json :=
  _get "/ransomnotes" api_key None.

Definition fetch_ransomnote_group_list (group api_key : string) : action json :=
  _get ("/ransomnotes/" ++ group) api_key None.

Definition fetch_ransomnote_detail (group note_name api_key : string)
    : action json :=
  _get ("/ransomnotes/" ++ group ++ "/" ++ note_name) api_key None.

Definition fetch_stats (api_key : string) : action json :=
  _get "/stats" api_key None.

Definition validate_api_key (api_key : string) : action json :=
  _get "/validate" api_key None.

Definition fetch_single_victim (victim_id api_key : string) : action json :=
  _get ("/victim/" ++ victim_id) api_key None.

Definition fetch_yara_rules_list (api_key : string) : action json :=
  _get "/yara" api_key None.

Definition fetch_yara_rules_detail (group api_key : string) : action json :=
  _get ("/yara/" ++ group) api_key None.

End WithRuntime.
End Client.

(** ** mcp_server_ransomware.py: the tools over the client *)

Module Server.
Import Http.

Section WithRuntime.
Context {rt : Runtime}.

Definition fetch_ransomware_data_tool (url : string) : action json :=
  Client.fetch_ransomware_data API_KEY url.

Definition fetch_csirt_data_tool (country_code : string) : action json :=
  Client.fetch_csirt_data country_code API_KEY.

Definition fetch_group_data_tool (group_name : string) : action json :=
  Client.fetch_group_data group_name API_KEY.

Definition fetch_iocs_tool (ioc_type : string) : action json :=
  let ioc_type := if String.eqb ioc_type "" then None else Some ioc_type in
  Client.fetch_iocs API_KEY ioc_type.

Definition fetch_group_iocs_tool (group ioc_type : string) : action json :=
  let ioc_type := if String.eqb ioc_type "" then None else Some ioc_type in
  Client.fetch_group_iocs group API_KEY ioc_type.

Definition get_akira_iocs_tool (group_name : string) : action json :=
  Client.get_akira_iocs API_KEY group_name.

Definition fetch_press_releases_tool (year month : Z) (country : string)
    : action json :=
  Client.fetch_press_releases API_KEY year month country.

Definition fetch_recent_press_tool (country : string) : action json :=
  Client.fetch_recent_press API_KEY country.

Definition fetch_victims_tool (group sector country : string) (year month : Z)
    : action json :=
  Client.fetch_victims API_KEY group sector country year month.

Definition fetch_recent_victims_tool (order : string) : action json :=
  Client.fetch_recent_victims API_KEY order.

Definition search_victims_tool (group sector country : string) : action json :=
  Client.search_victims API_KEY group sector country.

Definition fetch_all_victims_tool : action json :=
  Client.fetch_all_victims API_KEY.

Definition fetch_ransomware_groups_tool : action json :=
  Client.fetch_ransomware_groups API_KEY.

Definition fetch_sectors_tool : action json :=
  Client.fetch_sectors API_KEY.

Definition fetch_negotiations_tool : action json :=
  Client.fetch_negotiations API_KEY.

Definition fetch_negotiation_group_chats_tool (group : string) : action json :=
  Client.fetch_negotiation_group_chats group API_KEY.

Definition fetch_negotiation_chat_detail_tool (group chat_id : string)
    : action json :=
  Client.fetch_negotiation_chat_detail group chat_id API_KEY.

Definition fetch_ransomnote_groups_tool : action json :=
  Client.fetch_ransomnote_groups API_KEY.

Definition fetch_ransomnote_group_list_tool (group : string) : action json :=
  Client.fetch_ransomnote_group_list group API_KEY.

Definition fetch_ransomnote_detail_tool (group note_name : string) : action json :=
  Client.fetch_ransomnote_detail group note_name API_KEY.

Definition fetch_stats_tool : action json :=
  Client.fetch_stats API_KEY.

Definition validate_api_key_tool : action json :=
  Client.validate_api_key API_KEY.

Definition fetch_single_victim_tool (victim_id : string) : action json :=
  Client.fetch_single_victim victim_id API_KEY.

Definition fetch_yara_rules_list_tool : action json :=
  Client.fetch_yara_rules_list API_KEY.

Definition fetch_yara_rules_detail_tool (group : string) : action json :=
  Client.fetch_yara_rules_detail group API_KEY.

End WithRuntime.

(** A call of one of the twenty-five registered tools, with its arguments. *)
Inductive tool_call : Type :=
| call_fetch_ransomware_data (url : string)
| call_fetch_csirt_data (country_code : string)
| call_fetch_ransomware_groups
| call_fetch_group_data (group_name : string)
| call_fetch_iocs (ioc_type : string)
| call_fetch_group_iocs (group ioc_type : string)
| call_get_akira_iocs (group_name : string)
| call_fetch_sectors
| call_fetch_negotiations
| call_fetch_negotiation_group_chats (group : string)
| call_fetch_negotiation_chat_detail (group chat_id : string)
| call_fetch_press_releases (year month : Z) (country : string)
| call_fetch_recent_press (country : string)
| call_fetch_victims (group sector country : string) (year month : Z)
| call_fetch_recent_victims (order : string)
| call_search_victims (group sector country : string)
| call_fetch_all_victims
| call_fetch_ransomnote_groups
| call_fetch_ransomnote_group_list (group : string)
| call_fetch_ransomnote_detail (group note_name : string)
| call_fetch_stats
| call_validate_api_key
| call_fetch_single_victim (victim_id : string)
| call_fetch_yara_rules_list
| call_fetch_yara_rules_detail (group : string).

(** The function the server runs for a call. *)
Definition invoke {rt : Runtime} (c : tool_call) : action json :=
  match c with
  | call_fetch_ransomware_data url => fetch_ransomware_data_tool url
  | call_fetch_csirt_data country_code => fetch_csirt_data_tool country_code
  | call_fetch_ransomware_groups => fetch_ransomware_groups_tool
  | call_fetch_group_data group_name => fetch_group_data_tool group_name
  | call_fetch_iocs ioc_type => fetch_iocs_tool ioc_type
  | call_fetch_group_iocs group ioc_type => fetch_group_iocs_tool group ioc_type
  | call_get_akira_iocs group_name => get_akira_iocs_tool group_name
  | call_fetch_sectors => fetch_sectors_tool
  | call_fetch_negotiations => fetch_negotiations_tool
  | call_fetch_negotiation_group_chats group =>
      fetch_negotiation_group_chats_tool group
  | call_fetch_negotiation_chat_detail group chat_id =>
      fetch_negotiation_chat_detail_tool group chat_id
  | call_fetch_press_releases year month country =>
      fetch_press_releases_tool year month country
  | call_fetch_recent_press country => fetch_recent_press_tool country
  | call_fetch_victims group sector country year month =>
      fetch_victims_tool group sector country year month
  | call_fetch_recent_victims order => fetch_recent_victims_tool order
  | call_search_victims group sector country =>
      search_victims_tool group sector country
  | call_fetch_all_victims => fetch_all_victims_tool
  | call_fetch_ransomnote_groups => fetch_ransomnote_groups_tool
  | call_fetch_ransomnote_group_list group => fetch_ransomnote_group_list_tool group
  | call_fetch_ransomnote_detail group note_name =>
      fetch_ransomnote_detail_tool group note_name
  | call_fetch_stats => fetch_stats_tool
  | call_validate_api_key => validate_api_key_tool
  | call_fetch_single_victim victim_id => fetch_single_victim_tool victim_id
  | call_fetch_yara_rules_list => fetch_yara_rules_list_tool
  | call_fetch_yara_rules_detail group => fetch_yara_rules_detail_tool group
  end.

(** The only tool that takes the whole URL from its caller. *)
Definition takes_url (c : tool_call) : bool :=
  match c with
  | call_fetch_ransomware_data _ => true
  | _ => false
  end.

End Server.

(** ** The catalog in the words of the specification

    The specification describes the fetch-everything operation as the generic
    victim search called with an empty filter set, and a month as rendered on
    two digits.  These definitions follow that wording; the theorems below
    compare them with the client. *)

Module Spec.
Import Http.

Definition generic_victim_search {rt : Runtime} (api_key : string)
    (filters : list (string * pyval)) : action json :=
  Client._get "/victims/search" api_key (Some filters).

Definition digit (d : Z) : ascii := ascii_of_nat (48 + Z.to_nat d).

Definition two_digits (n : Z) : string :=
  String (digit (n / 10)) (String (digit (n mod 10)) EmptyString).

(** Lower and upper case of a text, read off the two alphabets: a letter of
    one alphabet is replaced by the letter at the same place in the other,
    and every other character stays as it is. *)
Definition capitals : string := "ABCDEFGHIJKLMNOPQRSTUVWXYZ".

Definition smalls : string := "abcdefghijklmnopqrstuvwxyz".

Fixpoint facing (from to : string) (c : ascii) : ascii :=
  match from, to with
  | String a from', String b to' => if Ascii.eqb c a then b else facing from' to' c
  | _, _ => c
  end.

Fixpoint lower_cased (s : string) : string :=
  match s with
  | EmptyString => EmptyString
  | String c rest => String (facing capitals smalls c) (lower_cased rest)
  end.

Fixpoint upper_cased (s : string) : string :=
  match s with
  | EmptyString => EmptyString
  | String c rest => String (facing smalls capitals c) (upper_cased rest)
  end.

End Spec.

(** ** The scraper: the main block of ransomware_client.py

    The block creates the output directory, then, inside one [try], fetches
    eight resources in a fixed order, prints a line about each and writes each
    to a file; if the groups reply has a non-empty "data", it goes on with
    the first group.  Any exception inside the [try] ends the run with a
    printed error.

    Besides the network, the host decides whether the directory can be made,
    whether a line can be printed and whether a file can be written, and how
    the runtime reads a number (for the truth value of a JSON number).  A
    line is named by its label; the text printed after the label is not
    modelled, nor is the layout of a written file: an event [Wrote path v]
    says that [json.dump] of [v] to [path] went through. *)

Module Scraper.
Import Http.

Record Host : Type := mkHost {
  net : Network;
  makedirs_ok : bool;
  stdout_ok : string -> bool;
  open_ok : string -> bool;
  number_truthy : string -> bool
}.

Inductive event : Type :=
| Sent (r : Request)
| Wrote (path : string) (content : json).

(** What can stop the [try] block. *)
Inductive failure : Type :=
| ClientError (e : exn)
| AttributeError
| TypeError
| KeyError
| IndexError
| PrintFailed (label : string)
| WriteFailed (path : string).

Definition prog (A : Type) : Type := Host -> list event * (failure + A).

Definition ret {A : Type} (a : A) : prog A := fun _ => ([], inr a).

Definition throw {A : Type} (f : failure) : prog A := fun _ => ([], inl f).

Definition seq {A B : Type} (m : prog A) (k : A -> prog B) : prog B :=
  fun h =>
    match m h with
    | (log, inl f) => (log, inl f)
    | (log, inr a) =>
        match k a h with
        | (log', res) => ((log ++ log')%list, res)
        end
    end.

Declare Scope prog_scope.
Delimit Scope prog_scope with prog.
Notation "x <- m ;; k" := (seq m (fun x => k))
  (at level 61, m at next level, right associativity) : prog_scope.
Notation "m ;; k" := (seq m (fun _ => k))
  (at level 61, right associativity) : prog_scope.

(** A call of a client function. *)
Definition fetch (m : action json) : prog json :=
  fun h =>
    match run (net h) m with
    | (sent, inl e) => (map Sent sent, inl (ClientError e))
    | (sent, inr v) => (map Sent sent, inr v)
    end.

Definition print (label : string) : prog unit :=
  fun h => if stdout_ok h label then ([], inr tt) else ([], inl (PrintFailed label)).

(** [with open(path, "w") as f: json.dump(value, f, indent=4)] *)
Definition dump (path : string) (value : json) : prog unit :=
  fun h => if open_ok h path then ([Wrote path value], inr tt)
           else ([], inl (WriteFailed path)).

Definition lift {A : Type} (r : failure + A) : prog A := fun _ => ([], r).

(** The value bound to a key in a decoded object: the last one, should the
    text have repeated the key. *)
Fixpoint lookup (key : string) (members : list (string * json)) : option json :=
  match members with
  | [] => None
  | (k, v) :: rest =>
      match lookup key rest with
      | Some w => Some w
      | None => if String.eqb key k then Some v else None
      end
  end.

(** [value.get(key, default)]: only a dict has [get]. *)
Definition get (value : json) (key : string) (default : json) : failure + json :=
  match value with
  | JObject members =>
      inr match lookup key members with
          | Some v => v
          | None => default
          end
  | _ => inl AttributeError
  end.

(** [len(value)], for its success: a dict, a list and a string have a
    length. *)
Definition len (value : json) : failure + unit :=
  match value with
  | JObject _ | JArray _ | JString _ => inr tt
  | _ => inl TypeError
  end.

Definition truthy (h : Host) (value : json) : bool :=
  match value with
  | JNull => false
  | JBool b => b
  | JNumber literal => number_truthy h literal
  | JString s => negb (String.eqb s "")
  | JArray items => match items with [] => false | _ => true end
  | JObject members => match members with [] => false | _ => true end
  end.

(** [a or b], with [b] evaluated only when [a] is false. *)
Definition or_else (a : json) (b : failure + json) : prog json :=
  fun h => if truthy h a then ([], inr a) else ([], b).

(** [value[0]['name']] *)
Definition first_name (value : json) : failure + json :=
  match value with
  | JArray [] => inl IndexError
  | JArray (JObject members :: _) =>
      match lookup "name" members with
      | Some v => inr v
      | None => inl KeyError
      end
  | JArray (_ :: _) => inl TypeError
  | JObject _ => inl KeyError
  | JString s => if String.eqb s "" then inl IndexError else inl TypeError
  | _ => inl TypeError
  end.

(** [value.lower()]: only a string has [lower]. *)
Definition lower_of {rt : Runtime} (value : json) : failure + string :=
  match value with
  | JString s => inr (Client.lower s)
  | _ => inl AttributeError
  end.

(** [value.keys()]: only a dict has [keys]. *)
Definition keys (value : json) : failure + unit :=
  match value with
  | JObject _ => inr tt
  | _ => inl AttributeError
  end.

(** ['data' in groups and groups['data']], for a dict [groups]. *)
Definition has_data (h : Host) (groups : json) : option json :=
  match groups with
  | JObject members =>
      match lookup "data" members with
      | Some v => if truthy h v then Some v else None
      | None => None
      end
  | _ => None
  end.

Section WithRuntime.
Context {rt : Runtime}.

(** The part under [if 'data' in groups and groups['data']]. *)
Definition first_group (data : json) : prog unit :=
  (name <- lift (first_name data) ;;
  group_name <- lift (lower_of name) ;;
  print "Fetching data for group:" ;;
  group_data <- fetch (Client.fetch_group_data group_name API_KEY) ;;
  lift (keys group_data) ;;
  print "Group data keys:" ;;
  dump ("scraped_data/group_" ++ group_name ++ ".json") group_data ;;
  print "Fetching IOCs for group:" ;;
  group_iocs <- fetch (Client.fetch_group_iocs group_name API_KEY None) ;;
  iocs_data <- lift (get group_iocs "data" (JArray [])) ;;
  lift (len iocs_data) ;;
  print "IOCs count:" ;;
  dump ("scraped_data/iocs_" ++ group_name ++ ".json") group_iocs)%prog.

(** The body of the [try]. *)
Definition body : prog unit :=
  (print "Validating API key..." ;;
  validate <- fetch (Client.validate_api_key API_KEY) ;;
  print "API Key valid:" ;;
  dump "scraped_data/validate.json" validate ;;
  print "Fetching stats..." ;;
  stats <- fetch (Client.fetch_stats API_KEY) ;;
  print "Stats:" ;;
  dump "scraped_data/stats.json" stats ;;
  print "Fetching ransomware groups..." ;;
  groups <- fetch (Client.fetch_ransomware_groups API_KEY) ;;
  data <- lift (get groups "data" JNull) ;;
  groups_data <- or_else data (get groups "groups" (JArray [])) ;;
  lift (len groups_data) ;;
  print "Groups count:" ;;
  dump "scraped_data/groups.json" groups ;;
  print "Fetching sectors..." ;;
  sectors <- fetch (Client.fetch_sectors API_KEY) ;;
  print "Sectors:" ;;
  dump "scraped_data/sectors.json" sectors ;;
  print "Fetching recent victims..." ;;
  recent_victims <- fetch (Client.fetch_recent_victims API_KEY "attacked") ;;
  recent_data <- lift (get recent_victims "data" JNull) ;;
  victims_data <- or_else recent_data (get recent_victims "victims" (JArray [])) ;;
  lift (len victims_data) ;;
  print "Recent victims count:" ;;
  dump "scraped_data/recent_victims.json" recent_victims ;;
  print "Fetching all victims..." ;;
  all_victims <- fetch (Client.fetch_all_victims API_KEY) ;;
  all_data <- lift (get all_victims "data" (JArray [])) ;;
  lift (len all_data) ;;
  print "All victims count:" ;;
  dump "scraped_data/all_victims.json" all_victims ;;
  print "Fetching negotiations..." ;;
  negotiations <- fetch (Client.fetch_negotiations API_KEY) ;;
  negotiations_data <- lift (get negotiations "data" (JArray [])) ;;
  lift (len negotiations_data) ;;
  print "Negotiations count:" ;;
  dump "scraped_data/negotiations.json" negotiations ;;
  print "Fetching YARA rules list..." ;;
  yara_list <- fetch (Client.fetch_yara_rules_list API_KEY) ;;
  print "YARA groups:" ;;
  dump "scraped_data/yara_list.json" yara_list ;;
  (fun h => match has_data h groups with
               | Some data => first_group data h
               | None => ([], inr tt)
               end) ;;
  print "Scraping complete.")%prog.

(** How a run ends: the block completed, an exception was caught and
    reported, or an exception escaped (the directory could not be made, or
    the report itself could not be printed). *)
Inductive ending : Type :=
| Complete
| Handled (f : failure)
| Uncaught.

Definition main (h : Host) : list event * ending :=
  if makedirs_ok h then
    match body h with
    | (log, inr _) => (log, Complete)
    | (log, inl f) => (log, if stdout_ok h "Error:" then Handled f else Uncaught)
    end
  else ([], Uncaught).

End WithRuntime.

(** The request of [_get] with the credential of the process. *)
Definition api_request {rt : Runtime} (endpoint : string)
    (params : option (list (string * pyval))) : Request :=
  mkRequest (Client.BASE_URL ++ endpoint)
            [("Accept", "application/json"); ("X-API-KEY", API_KEY)] params 10.

(** The requests of the block in the order of the source, each with the file
    its reply is written to; the last two are for the group [group_name]. *)
Definition plan {rt : Runtime} (group_name : string) : list (Request * string) :=
  [ (api_request "/validate" None, "scraped_data/validate.json");
    (api_request "/stats" None, "scraped_data/stats.json");
    (api_request "/groups" None, "scraped_data/groups.json");
    (api_request "/listsectors" None, "scraped_data/sectors.json");
    (api_request "/victims/recent" (Some [("order", PStr "attacked")]),
     "scraped_data/recent_victims.json");
    (api_request "/victims/search" (Some []), "scraped_data/all_victims.json");
    (api_request "/negotiations" None, "scraped_data/negotiations.json");
    (api_request "/yara" None, "scraped_data/yara_list.json");
    (api_request ("/groups/" ++ Client.lower group_name) None,
     "scraped_data/group_" ++ group_name ++ ".json");
    (api_request ("/iocs/" ++ group_name) None,
     "scraped_data/iocs_" ++ group_name ++ ".json") ].

(** The reply to [req] is one the client accepts, and it decodes to [v]. *)
Definition accepted {rt : Runtime} (h : Host) (req : Request) (v : json) : Prop :=
  exists r, net h req = Reply r
            /\ ~ 400 <= status_code r < 600
            /\ json_loads (text r) = Some v.

(** A log that follows a plan: it stops between two requests, or after a
    request with nothing written for it, and before that every request is
    followed by the writing of its accepted reply to its file. *)
Inductive follows {rt : Runtime} (h : Host)
    : list (Request * string) -> list event -> Prop :=
| follows_stop (todo : list (Request * string)) : follows h todo []
| follows_sent (req : Request) (path : string) (todo : list (Request * string)) :
    follows h ((req, path) :: todo) [Sent req]
| follows_wrote (req : Request) (path : string) (v : json)
    (todo : list (Request * string)) (log : list event) :
    accepted h req v ->
    follows h todo log ->
    follows h ((req, path) :: todo) (Sent req :: Wrote path v :: log).

Fixpoint requests (log : list event) : list Request :=
  match log with
  | [] => []
  | Sent r :: rest => r :: requests rest
  | Wrote _ _ :: rest => requests rest
  end.

Fixpoint files (log : list event) : list (string * json) :=
  match log with
  | [] => []
  | Sent _ :: rest => files rest
  | Wrote path v :: rest => (path, v) :: files rest
  end.

End Scraper.

(** ** test_mcp_server_fixed.py: the search for the session URL

    The test opens the event stream of the server and reads it line by line
    until a line announces the session: empty lines are skipped, a line is
    decoded as UTF-8, and the first line that starts with "data: " and goes
    on with "/messages/" gives the URL.  The loop sits in a [try]: a line
    that does not decode, or a stream that breaks, ends the test. *)

Module McpTest.

Definition server_url : string := "http://localhost:23001".

(** [s[n:]] *)
Fixpoint drop (n : nat) (s : string) : string :=
  match n, s with
  | O, _ => s
  | S _, EmptyString => EmptyString
  | S n', String _ rest => drop n' rest
  end.

(** How the stream ends after its last line. *)
Inductive stream_end : Type :=
| Closed
| Broken.

Inductive search : Type :=
| Found (session_url : string)
| NotFound
| Raised.

Section Lines.

(** Whether [line.decode('utf-8')] goes through. *)
Variable utf8_ok : string -> bool.

Fixpoint find_session (lines : list string) (ending : stream_end) : search :=
  match lines with
  | [] =>
      match ending with
      | Closed => NotFound
      | Broken => Raised
      end
  | line :: rest =>
      if String.eqb line "" then find_session rest ending
      else if negb (utf8_ok line) then Raised
      else if String.prefix "data: " line then
        let data := drop 6 line in
        if String.prefix "/messages/" data then Found (server_url ++ data)
        else find_session rest ending
      else find_session rest ending
  end.

End Lines.

End McpTest.

(** ** Reading a decimal text back

    The inverse of the integer formats of the client: an optional minus sign,
    then decimal digits, leading zeros allowed. *)

Module DecimalText.

Definition read (s : string) : option Z :=
  match s with
  | EmptyString => None
  | String c rest =>
      if Ascii.eqb c "-"
      then option_map (fun d => - Z.of_N (N.of_uint d)) (NilEmpty.uint_of_string rest)
      else option_map (fun d => Z.of_N (N.of_uint d)) (NilEmpty.uint_of_string s)
  end.

End DecimalText.

(** ** A concrete runtime and concrete servers, for evaluation *)

Module Demo.
Import Http.

(** A decoder that knows a handful of JSON texts and rejects the rest. *)
Definition loads (body : string) : option json :=
  if String.eqb body "null" then Some JNull
  else if String.eqb body "true" then Some (JBool true)
  else if String.eqb body "false" then Some (JBool false)
  else if String.eqb body "[]" then Some (JArray [])
  else if String.eqb body "{}" then Some (JObject [])
  else if String.eqb body "42" then Some (JNumber "42")
  else None.

Definition runtime : Runtime := {|
  json_loads := loads;
  unicode_lower := fun s => s;
  unicode_upper := fun s => s;
  discovered_first := true;
  API_KEY := "demo-key"
|}.

(** A server that answers every request with the same status and body. *)
Definition server (status : Z) (body : string) : Network :=
  fun _ => Reply (mkResponse status body).

(** A network on which every request fails. *)
Definition unreachable : Network := fun _ => Failed "connection refused".

(** For the scraper: a body that lists one group, a decoder that knows it, a
    server that sends it for /groups and an empty object for the rest, and a
    host on which printing and writing go through. *)
Definition quote : string := String (ascii_of_nat 34) EmptyString.

Definition groups_body : string :=
  "{" ++ quote ++ "data" ++ quote ++ ": [{" ++ quote ++ "name" ++ quote ++ ": "
  ++ quote ++ "LockBit" ++ quote ++ "}]}".

Definition scraper_loads (body : string) : option json :=
  if String.eqb body groups_body
  then Some (JObject [("data", JArray [JObject [("name", JString "LockBit")]])])
  else loads body.

Definition scraper_runtime : Runtime := {|
  json_loads := scraper_loads;
  unicode_lower := fun s => s;
  unicode_upper := fun s => s;
  discovered_first := true;
  API_KEY := "demo-key"
|}.

Definition site : Network :=
  fun r => if Py.ends_with "/groups" (url r)
           then Reply (mkResponse 200 groups_body)
           else Reply (mkResponse 200 "{}").

Definition host (n : Network) : Scraper.Host := {|
  Scraper.net := n;
  Scraper.makedirs_ok := true;
  Scraper.stdout_ok := fun _ => true;
  Scraper.open_ok := fun _ => true;
  Scraper.number_truthy := fun literal => negb (String.eqb literal "0")
|}.

End Demo.

(** * Properties *)

Import Http.

(** ** The request executor *)

Section Executor.
Context {rt : Runtime}.

(** The request [_get] builds from its arguments. *)
Lemma run_get (net : Network) (endpoint api_key : string)
    (params : option (list (string * pyval))) :
  run net (Client._get endpoint api_key params) =
  let req := mkRequest (Client.BASE_URL ++ endpoint)
                       [("Accept", "application/json"); ("X-API-KEY", api_key)]
                       params 10 in
  match net req with
  | Failed cause => ([req], inl (RequestException cause))
  | Reply r =>
      ([req],
       if (400 <=? status_code r) && (status_code r <? 600)
       then inl (HTTPError (status_code r) (text r))
       else match json_loads (text r) with
            | Some v => inr v
            | None => inl (ValueError ("Invalid JSON response: " ++ text r))
            end)
  end.
Proof.
  unfold Client._get, requests_get; cbn [bind run].
  destruct (net _) as [cause | r]; [reflexivity |].
  unfold raise_for_status.
  destruct ((400 <=? status_code r) && (status_code r <? 600)); cbn [bind run].
  - reflexivity.
  - destruct (json_loads (text r)); reflexivity.
Qed.

(** One call of [_get] is one request, whatever the network answers. *)
Lemma dispatched_get (net : Network) (endpoint api_key : string)
    (params : option (list (string * pyval))) :
  dispatched net (Client._get endpoint api_key params) =
  [mkRequest (Client.BASE_URL ++ endpoint)
             [("Accept", "application/json"); ("X-API-KEY", api_key)]
             params 10].
Proof.
  unfold dispatched. rewrite run_get. cbv zeta.
  destruct (net _); reflexivity.
Qed.

Lemma error_status_spec (s : Z) :
  (400 <=? s) && (s <? 600) = true <-> 400 <= s < 600.
Proof.
  rewrite andb_true_iff, Z.leb_le, Z.ltb_lt. tauto.
Qed.

Lemma error_status_false (s : Z) :
  (400 <=? s) && (s <? 600) = false <-> ~ 400 <= s < 600.
Proof.
  rewrite <- error_status_spec. destruct ((400 <=? s) && (s <? 600)); intuition congruence.
Qed.

(** A transport failure reaches the caller as it is. *)
Lemma get_transport_failure (net : Network) (endpoint api_key : string)
    (params : option (list (string * pyval))) (cause : string) :
  net (mkRequest (Client.BASE_URL ++ endpoint)
                 [("Accept", "application/json"); ("X-API-KEY", api_key)]
                 params 10) = Failed cause ->
  result net (Client._get endpoint api_key params) = inl (RequestException cause).
Proof.
  intros Hnet. unfold result. rewrite run_get. cbv zeta. rewrite Hnet. reflexivity.
Qed.

(** C1. When the response to a call of [_get] has a status in the 2xx range
    and its body decodes as JSON, the call dispatches its one request and
    returns the decoded value itself, whatever that value is. *)
Theorem get_returns_decoded_json (net : Network) (endpoint api_key : string)
    (params : option (list (string * pyval))) (r : Response) (v : json) :
  net (mkRequest (Client.BASE_URL ++ endpoint)
                 [("Accept", "application/json"); ("X-API-KEY", api_key)]
                 params 10) = Reply r ->
  200 <= status_code r < 300 ->
  json_loads (text r) = Some v ->
  run net (Client._get endpoint api_key params) =
  ([mkRequest (Client.BASE_URL ++ endpoint)
              [("Accept", "application/json"); ("X-API-KEY", api_key)]
              params 10],
   inr v).
Proof.
  intros Hnet Hstatus Hbody.
  rewrite run_get. cbv zeta. rewrite Hnet.
  assert (Hok : (400 <=? status_code r) && (status_code r <? 600) = false)
    by (apply error_status_false; lia).
  rewrite Hok, Hbody. reflexivity.
Qed.

(** C2, as the client behaves.  A response whose status is a client or server
    error (400 to 599) makes [_get] raise [HTTPError] with that status and the
    body, whatever the body is.  A response with any other status, the 2xx
    range included, whose body does not decode makes it raise [ValueError]
    with the raw text in the message.  A value is returned only when a
    response arrived whose status is not an error status and whose body
    decodes to that value. *)
Theorem get_failures (net : Network) (endpoint api_key : string)
    (params : option (list (string * pyval))) :
  let req := mkRequest (Client.BASE_URL ++ endpoint)
                       [("Accept", "application/json"); ("X-API-KEY", api_key)]
                       params 10 in
  (forall r, net req = Reply r -> 400 <= status_code r < 600 ->
     result net (Client._get endpoint api_key params) =
     inl (HTTPError (status_code r) (text r)))
  /\ (forall r, net req = Reply r -> ~ 400 <= status_code r < 600 ->
        json_loads (text r) = None ->
        result net (Client._get endpoint api_key params) =
        inl (ValueError ("Invalid JSON response: " ++ text r)))
  /\ (forall v, result net (Client._get endpoint api_key params) = inr v ->
        exists r, net req = Reply r /\ ~ 400 <= status_code r < 600
                  /\ json_loads (text r) = Some v).
Proof.
  cbv zeta. unfold result. rewrite run_get. cbv zeta.
  repeat split.
  - intros r Hnet Hst. rewrite Hnet. cbn [snd].
    apply error_status_spec in Hst. rewrite Hst. reflexivity.
  - intros r Hnet Hst Hbody. rewrite Hnet. cbn [snd].
    apply error_status_false in Hst. rewrite Hst, Hbody. reflexivity.
  - intros v. destruct (net _) as [cause | r]; cbn [snd]; [discriminate |].
    destruct ((400 <=? status_code r) && (status_code r <? 600)) eqn:Hst;
      [discriminate |].
    destruct (json_loads (text r)) as [w |] eqn:Hbody; [| discriminate].
    intros Hv. injection Hv as <-.
    exists r. apply error_status_false in Hst. auto.
Qed.

End Executor.

(** ** The endpoint catalog *)

Section Catalog.
Context {rt : Runtime}.

Lemma repr_valid_orders :
  Py.repr_set Client.valid_orders = "{'discovered', 'attacked'}"
  \/ Py.repr_set Client.valid_orders = "{'attacked', 'discovered'}".
Proof.
  unfold Client.valid_orders. destruct discovered_first; [left | right]; reflexivity.
Qed.

Lemma set_mem_valid_orders (order : string) :
  Client.set_mem order Client.valid_orders = true
  <-> order = "discovered" \/ order = "attacked".
Proof.
  unfold Client.set_mem, Client.valid_orders.
  destruct discovered_first; cbn [existsb];
    rewrite !orb_true_iff, !String.eqb_eq; intuition discriminate.
Qed.

(** The two definitions of each rebound name are the same function. *)
Lemma rebound_definitions_agree :
  Client.fetch_recent_victims_first = Client.fetch_recent_victims
  /\ Client.fetch_all_victims_first = Client.fetch_all_victims.
Proof. split; reflexivity. Qed.

(** C3. With an order other than "discovered" and "attacked",
    [fetch_recent_victims] raises the [ValueError] whose message names the
    offending value and the allowed set, and no request is dispatched.  With
    "discovered" it dispatches exactly one GET, to /victims/recent, whose
    query is order=discovered. *)
Theorem fetch_recent_victims_order (net : Network) (api_key order : string) :
  (order <> "discovered" -> order <> "attacked" ->
     run net (Client.fetch_recent_victims api_key order) =
     ([], inl (ValueError ("Invalid order value: " ++ order ++ ". Must be one of "
                           ++ Py.repr_set Client.valid_orders ++ ".")))
     /\ (Py.repr_set Client.valid_orders = "{'discovered', 'attacked'}"
         \/ Py.repr_set Client.valid_orders = "{'attacked', 'discovered'}"))
  /\ dispatched net (Client.fetch_recent_victims api_key "discovered") =
     [mkRequest (Client.BASE_URL ++ "/victims/recent")
                [("Accept", "application/json"); ("X-API-KEY", api_key)]
                (Some [("order", PStr "discovered")]) 10]
  /\ map query_pairs (dispatched net (Client.fetch_recent_victims api_key "discovered")) =
     [[("order", "discovered")]].
Proof.
  split; [| split].
  - intros Hd Ha. split; [| apply repr_valid_orders].
    unfold Client.fetch_recent_victims.
    destruct (Client.set_mem order Client.valid_orders) eqn:Hmem.
    + apply set_mem_valid_orders in Hmem. tauto.
    + reflexivity.
  - unfold Client.fetch_recent_victims.
    assert (Hmem : Client.set_mem "discovered" Client.valid_orders = true)
      by (apply set_mem_valid_orders; auto).
    rewrite Hmem. cbn [negb]. apply dispatched_get.
  - unfold Client.fetch_recent_victims.
    assert (Hmem : Client.set_mem "discovered" Client.valid_orders = true)
      by (apply set_mem_valid_orders; auto).
    rewrite Hmem. cbn [negb]. rewrite dispatched_get. reflexivity.
Qed.

(** C4. The operations with an optional filter are [fetch_group_iocs] and
    [fetch_iocs], and their tools.  Called with the filter absent ([None] or the
    empty string at the client, the empty string at the tool) each dispatches
    one request with no query mapping at all, so no key stands for the filter;
    with a filter given, [fetch_group_iocs] sends it under the key "type". *)
Theorem optional_filter_omitted (net : Network) (group api_key : string) :
  let hdrs k := [("Accept", "application/json"); ("X-API-KEY", k)] in
  dispatched net (Client.fetch_group_iocs group api_key None) =
    [mkRequest (Client.BASE_URL ++ "/iocs/" ++ group) (hdrs api_key) None 10]
  /\ dispatched net (Client.fetch_group_iocs group api_key (Some "")) =
    [mkRequest (Client.BASE_URL ++ "/iocs/" ++ group) (hdrs api_key) None 10]
  /\ dispatched net (Server.fetch_group_iocs_tool group "") =
    [mkRequest (Client.BASE_URL ++ "/iocs/" ++ group) (hdrs API_KEY) None 10]
  /\ dispatched net (Client.fetch_iocs api_key None) =
    [mkRequest (Client.BASE_URL ++ "/iocs") (hdrs api_key) None 10]
  /\ dispatched net (Client.fetch_iocs api_key (Some "")) =
    [mkRequest (Client.BASE_URL ++ "/iocs") (hdrs api_key) None 10]
  /\ dispatched net (Server.fetch_iocs_tool "") =
    [mkRequest (Client.BASE_URL ++ "/iocs") (hdrs API_KEY) None 10]
  /\ map query_keys
         (dispatched net (Client.fetch_group_iocs group api_key None)
          ++ dispatched net (Client.fetch_group_iocs group api_key (Some ""))
          ++ dispatched net (Server.fetch_group_iocs_tool group "")
          ++ dispatched net (Client.fetch_iocs api_key None)
          ++ dispatched net (Client.fetch_iocs api_key (Some ""))
          ++ dispatched net (Server.fetch_iocs_tool ""))%list =
     [[]; []; []; []; []; []]
  /\ map query_pairs (dispatched net (Client.fetch_group_iocs group api_key (Some "domain"))) =
     [[("type", "domain")]].
Proof.
  cbv zeta.
  unfold Server.fetch_group_iocs_tool, Server.fetch_iocs_tool,
    Client.fetch_group_iocs, Client.fetch_iocs.
  cbn [String.eqb Py.truthy].
  rewrite !dispatched_get.
  repeat split; reflexivity.
Qed.

(** The lower case of the client, on ASCII text, is the lower case read off
    the alphabets. *)
Lemma lower_is_lower_cased (s : string) :
  Py.map_chars Py.ascii_lower_char s = Spec.lower_cased s.
Proof.
  induction s as [| c s IH]; cbn [Py.map_chars Spec.lower_cased]; [reflexivity |].
  rewrite IH. f_equal.
  destruct c as [b0 b1 b2 b3 b4 b5 b6 b7].
  destruct b0, b1, b2, b3, b4, b5, b6, b7; vm_compute; reflexivity.
Qed.

(** C5. [fetch_group_data] dispatches one GET whose path is /groups/ followed
    by the lower-cased group name: for a name of ASCII characters, the name
    with each capital letter replaced by its small letter and nothing else
    changed; for any other name, the name as the Unicode lower-casing of the
    runtime gives it.  For "LockBit" the URL ends in /groups/lockbit. *)
Theorem fetch_group_data_lowercases (net : Network) (group_name api_key : string) :
  (Py.is_ascii group_name = true ->
     dispatched net (Client.fetch_group_data group_name api_key) =
       [mkRequest (Client.BASE_URL ++ "/groups/" ++ Spec.lower_cased group_name)
                  [("Accept", "application/json"); ("X-API-KEY", api_key)] None 10])
  /\ (Py.is_ascii group_name = false ->
        dispatched net (Client.fetch_group_data group_name api_key) =
          [mkRequest (Client.BASE_URL ++ "/groups/" ++ unicode_lower group_name)
                     [("Accept", "application/json"); ("X-API-KEY", api_key)]
                     None 10])
  /\ map url (dispatched net (Client.fetch_group_data "LockBit" api_key)) =
     ["https://api-pro.ransomware.live/groups/lockbit"]
  /\ forallb (fun r => Py.ends_with "/groups/lockbit" (url r))
             (dispatched net (Client.fetch_group_data "LockBit" api_key)) = true.
Proof.
  unfold Client.fetch_group_data. rewrite !dispatched_get.
  split; [| split; [| split; reflexivity]].
  - intros Hascii. unfold Client.lower. rewrite Hascii, lower_is_lower_cased.
    reflexivity.
  - intros Hother. unfold Client.lower. rewrite Hother. reflexivity.
Qed.

(** The upper case of the client, on ASCII text, is the upper case read off
    the alphabets. *)
Lemma upper_is_upper_cased (s : string) :
  Py.map_chars Py.ascii_upper_char s = Spec.upper_cased s.
Proof.
  induction s as [| c s IH]; cbn [Py.map_chars Spec.upper_cased]; [reflexivity |].
  rewrite IH. f_equal.
  destruct c as [b0 b1 b2 b3 b4 b5 b6 b7].
  destruct b0, b1, b2, b3, b4, b5, b6, b7; vm_compute; reflexivity.
Qed.

(** C6, as the client behaves.  [fetch_csirt_data], which puts the country
    code in the path, sends it upper-cased: for a code of ASCII characters,
    the code with each small letter replaced by its capital letter and
    nothing else changed (for any other text, what the Unicode upper-casing
    of the runtime gives); "us" goes out as /csirt/US.  The operations that
    send the country as a query parameter pass it on as given. *)
Theorem country_code_case (net : Network)
    (api_key country group sector : string) (year month : Z) :
  (Py.is_ascii country = true ->
     dispatched net (Client.fetch_csirt_data country api_key) =
       [mkRequest (Client.BASE_URL ++ "/csirt/" ++ Spec.upper_cased country)
                  [("Accept", "application/json"); ("X-API-KEY", api_key)] None 10])
  /\ (Py.is_ascii country = false ->
        dispatched net (Client.fetch_csirt_data country api_key) =
          [mkRequest (Client.BASE_URL ++ "/csirt/" ++ unicode_upper country)
                     [("Accept", "application/json"); ("X-API-KEY", api_key)]
                     None 10])
  /\ map url (dispatched net (Client.fetch_csirt_data "us" api_key)) =
     ["https://api-pro.ransomware.live/csirt/US"]
  /\ map (query_value "country")
         (dispatched net (Client.fetch_recent_press api_key country)) =
     [Some country]
  /\ map (query_value "country")
         (dispatched net (Client.fetch_press_releases api_key year month country)) =
     [Some country]
  /\ map (query_value "country")
         (dispatched net (Client.fetch_victims api_key group sector country year month)) =
     [Some country]
  /\ map (query_value "country")
         (dispatched net (Client.search_victims api_key group sector country)) =
     [Some country].
Proof.
  unfold Client.fetch_csirt_data, Client.fetch_recent_press,
    Client.fetch_press_releases, Client.fetch_victims, Client.search_victims.
  rewrite !dispatched_get.
  split; [| split; [| repeat split; reflexivity]].
  - intros Hascii. unfold Client.upper. rewrite Hascii, upper_is_upper_cased.
    reflexivity.
  - intros Hother. unfold Client.upper. rewrite Hother. reflexivity.
Qed.

(** The format [02d] agrees with the two-digit rendering on 0..99. *)
Lemma format_02d_two_digits (month : Z) :
  0 <= month <= 99 -> Py.format_02d month = Spec.two_digits month.
Proof.
  intros Hrange.
  assert (Hall : forallb (fun k => String.eqb (Py.format_02d (Z.of_nat k))
                                              (Spec.two_digits (Z.of_nat k)))
                         (seq 0 100) = true) by (vm_compute; reflexivity).
  rewrite forallb_forall in Hall.
  specialize (Hall (Z.to_nat month)).
  rewrite Z2Nat.id in Hall by lia.
  apply String.eqb_eq, Hall, in_seq. lia.
Qed.

(** Whatever the integer, [02d] writes at least two characters. *)
Lemma format_02d_length (month : Z) :
  (2 <= String.length (Py.format_02d month))%nat.
Proof.
  unfold Py.format_02d, Py.format_0d.
  assert (Happ : forall a b, String.length (a ++ b) =
                             (String.length a + String.length b)%nat)
    by (induction a; intros; cbn; congruence).
  assert (Hzeros : forall k, String.length (Py.zeros k) = k)
    by (induction k; cbn; congruence).
  assert (Hdigits : (1 <= String.length
                             (NilZero.string_of_uint (N.to_uint (Z.abs_N month))))%nat).
  { unfold NilZero.string_of_uint.
    destruct (N.to_uint (Z.abs_N month)); cbn; lia. }
  rewrite !Happ, Hzeros.
  destruct (month <? 0); cbn [String.length]; lia.
Qed.

(** C7, as the client behaves.  For a month from 0 to 99 (the months 1 to 12
    among them) [fetch_press_releases] and [fetch_victims] send the month as
    two digits, zero-padded; month 9 goes out as "09". *)
Theorem month_two_digits (net : Network)
    (api_key group sector country : string) (year month : Z) :
  (0 <= month <= 99 ->
     dispatched net (Client.fetch_press_releases api_key year month country) =
       [mkRequest (Client.BASE_URL ++ "/press/all")
                  [("Accept", "application/json"); ("X-API-KEY", api_key)]
                  (Some [("year", PInt year);
                         ("month", PStr (Spec.two_digits month));
                         ("country", PStr country)]) 10]
     /\ dispatched net (Client.fetch_victims api_key group sector country year month) =
       [mkRequest (Client.BASE_URL ++ "/victims/")
                  [("Accept", "application/json"); ("X-API-KEY", api_key)]
                  (Some [("group", PStr group);
                         ("sector", PStr sector);
                         ("country", PStr country);
                         ("year", PInt year);
                         ("month", PStr (Spec.two_digits month))]) 10])
  /\ map (query_value "month")
         (dispatched net (Client.fetch_press_releases api_key year 9 country)) =
     [Some "09"]
  /\ map (query_value "month")
         (dispatched net (Client.fetch_victims api_key group sector country year 9)) =
     [Some "09"].
Proof.
  unfold Client.fetch_press_releases, Client.fetch_victims.
  rewrite !dispatched_get.
  split; [| split; reflexivity].
  intros Hrange. rewrite (format_02d_two_digits month Hrange).
  split; reflexivity.
Qed.

(** C8. [fetch_all_victims] is the generic victim search with an empty filter
    mapping: the same action, hence one GET to the /victims/search path that
    [search_victims] uses, with nothing in the query. *)
Theorem fetch_all_victims_is_search (net : Network)
    (api_key group sector country : string) :
  Client.fetch_all_victims api_key = Spec.generic_victim_search api_key []
  /\ Client.search_victims api_key group sector country =
     Spec.generic_victim_search api_key
       [("group", PStr group); ("sector", PStr sector); ("country", PStr country)]
  /\ Server.fetch_all_victims_tool = Spec.generic_victim_search API_KEY []
  /\ dispatched net (Client.fetch_all_victims api_key) =
     [mkRequest (Client.BASE_URL ++ "/victims/search")
                [("Accept", "application/json"); ("X-API-KEY", api_key)]
                (Some []) 10]
  /\ map url (dispatched net (Client.fetch_all_victims api_key)) =
     map url (dispatched net (Client.search_victims api_key group sector country))
  /\ map query_pairs (dispatched net (Client.fetch_all_victims api_key)) = [[]].
Proof.
  unfold Server.fetch_all_victims_tool, Client.fetch_all_victims,
    Client.search_victims, Spec.generic_victim_search.
  rewrite !dispatched_get.
  repeat split; reflexivity.
Qed.

(** C9. [get_akira_iocs] dispatches one GET to the fixed path /iocs/akira and
    sends the group name as the query parameter group_name; the URL does not
    depend on the group name. *)
Theorem get_akira_iocs_query (net : Network) (api_key group_name : string) :
  dispatched net (Client.get_akira_iocs api_key group_name) =
    [mkRequest (Client.BASE_URL ++ "/iocs/akira")
               [("Accept", "application/json"); ("X-API-KEY", api_key)]
               (Some [("group_name", PStr group_name)]) 10]
  /\ map url (dispatched net (Client.get_akira_iocs api_key group_name)) =
     ["https://api-pro.ransomware.live/iocs/akira"]
  /\ map query_pairs (dispatched net (Client.get_akira_iocs api_key group_name)) =
     [[("group_name", group_name)]].
Proof.
  unfold Client.get_akira_iocs. rewrite !dispatched_get.
  repeat split; reflexivity.
Qed.

(** C10. For a non-empty string [t], [fetch_iocs api_key t] and
    [fetch_group_iocs t api_key None] are the same action: one GET to /iocs/
    followed by [t], with no query, and the same outcome on every network. *)
Theorem fetch_iocs_same_as_group_iocs (net : Network) (api_key t : string) :
  t <> "" ->
  Client.fetch_iocs api_key (Some t) = Client.fetch_group_iocs t api_key None
  /\ run net (Client.fetch_iocs api_key (Some t)) =
     run net (Client.fetch_group_iocs t api_key None)
  /\ dispatched net (Client.fetch_iocs api_key (Some t)) =
     [mkRequest (Client.BASE_URL ++ "/iocs/" ++ t)
                [("Accept", "application/json"); ("X-API-KEY", api_key)] None 10]
  /\ dispatched net (Client.fetch_group_iocs t api_key None) =
     [mkRequest (Client.BASE_URL ++ "/iocs/" ++ t)
                [("Accept", "application/json"); ("X-API-KEY", api_key)] None 10].
Proof.
  intros Ht.
  unfold Client.fetch_iocs, Client.fetch_group_iocs.
  destruct t as [| c t']; [congruence |].
  cbn [Py.truthy of_optional str].
  rewrite !dispatched_get.
  repeat split; reflexivity.
Qed.

End Catalog.

(** ** Evaluation on the concrete runtime *)

#[local] Existing Instance Demo.runtime.

(** A 200 response with body [{}] is returned as the empty object. *)
Lemma get_returns_decoded_json_witness :
  Demo.server 200 "{}"
    (mkRequest "https://api-pro.ransomware.live/stats"
               [("Accept", "application/json"); ("X-API-KEY", "k")] None 10) =
    Reply (mkResponse 200 "{}")
  /\ 200 <= 200 < 300
  /\ Demo.loads "{}" = Some (JObject [])
  /\ run (Demo.server 200 "{}") (Client._get "/stats" "k" None) =
     ([mkRequest "https://api-pro.ransomware.live/stats"
                 [("Accept", "application/json"); ("X-API-KEY", "k")] None 10],
      inr (JObject [])).
Proof.
  split; [reflexivity | split; [lia | split; [reflexivity |]]].
  apply (get_returns_decoded_json (Demo.server 200 "{}") "/stats" "k" None
           (mkResponse 200 "{}") (JObject [])).
  - reflexivity.
  - cbn. lia.
  - reflexivity.
Defined.

(** "LockBit" is sent as /groups/lockbit. *)
Lemma fetch_group_data_lowercases_witness :
  Py.is_ascii "LockBit" = true
  /\ dispatched (Demo.server 200 "{}") (Client.fetch_group_data "LockBit" "k") =
     [mkRequest "https://api-pro.ransomware.live/groups/lockbit"
                [("Accept", "application/json"); ("X-API-KEY", "k")] None 10].
Proof.
  split; [reflexivity |].
  exact (proj1 (fetch_group_data_lowercases (Demo.server 200 "{}") "LockBit" "k")
           eq_refl).
Defined.

(** "us" is sent as /csirt/US. *)
Lemma country_code_case_witness :
  Py.is_ascii "us" = true
  /\ dispatched (Demo.server 200 "{}") (Client.fetch_csirt_data "us" "k") =
     [mkRequest "https://api-pro.ransomware.live/csirt/US"
                [("Accept", "application/json"); ("X-API-KEY", "k")] None 10].
Proof.
  split; [reflexivity |].
  exact (proj1 (country_code_case (Demo.server 200 "{}")
                  "k" "us" "lockbit" "health" 2024 9)
           eq_refl).
Defined.

(** A response with status 300 and a JSON body is outside the 2xx range, and
    [_get] returns the decoded body instead of raising. *)
Lemma get_status_300_returns_value :
  ~ 200 <= status_code (mkResponse 300 "{}") < 300
  /\ Demo.server 300 "{}"
       (mkRequest "https://api-pro.ransomware.live/stats"
                  [("Accept", "application/json"); ("X-API-KEY", "k")] None 10) =
     Reply (mkResponse 300 "{}")
  /\ result (Demo.server 300 "{}") (Client._get "/stats" "k" None) =
     inr (JObject [])
  /\ result (Demo.server 300 "{}") (Client._get "/stats" "k" None) <>
     inl (HTTPError 300 "{}").
Proof.
  repeat split; try reflexivity.
  - cbn. lia.
  - discriminate.
Qed.

(** 404 with any body is an [HTTPError] 404; 200 with a body that is not JSON
    is a [ValueError] with the text; a returned value comes from a response. *)
Lemma get_failures_witness :
  result (Demo.server 404 "{}") (Client._get "/groups/none" "k" None) =
    inl (HTTPError 404 "{}")
  /\ result (Demo.server 200 "not json") (Client._get "/stats" "k" None) =
    inl (ValueError "Invalid JSON response: not json")
  /\ exists r,
       Demo.server 200 "[]"
         (mkRequest "https://api-pro.ransomware.live/stats"
                    [("Accept", "application/json"); ("X-API-KEY", "k")] None 10) =
       Reply r
       /\ ~ 400 <= status_code r < 600
       /\ Demo.loads (text r) = Some (JArray []).
Proof.
  split; [| split].
  - apply (proj1 (get_failures (Demo.server 404 "{}") "/groups/none" "k" None)
             (mkResponse 404 "{}")).
    + reflexivity.
    + cbn. lia.
  - apply (proj1 (proj2 (get_failures (Demo.server 200 "not json") "/stats" "k" None))
             (mkResponse 200 "not json")).
    + reflexivity.
    + cbn. lia.
    + reflexivity.
  - exact (proj2 (proj2 (get_failures (Demo.server 200 "[]") "/stats" "k" None))
             (JArray []) eq_refl).
Defined.

(** The order "unknown" is refused before anything is sent. *)
Lemma fetch_recent_victims_order_witness :
  "unknown" <> "discovered" /\ "unknown" <> "attacked"
  /\ run (Demo.server 200 "{}") (Client.fetch_recent_victims "k" "unknown") =
     ([], inl (ValueError
        "Invalid order value: unknown. Must be one of {'discovered', 'attacked'}.")).
Proof.
  split; [discriminate | split; [discriminate |]].
  destruct (proj1 (fetch_recent_victims_order (Demo.server 200 "{}") "k" "unknown"))
    as [Hrun _].
  - discriminate.
  - discriminate.
  - exact Hrun.
Defined.

(** [fetch_recent_press] with "us" sends country=us: "US" is neither in the
    URL nor in the query. *)
Lemma recent_press_country_as_given :
  dispatched (Demo.server 200 "{}") (Client.fetch_recent_press "k" "us") =
    [mkRequest "https://api-pro.ransomware.live/press/recent"
               [("Accept", "application/json"); ("X-API-KEY", "k")]
               (Some [("country", PStr "us")]) 10]
  /\ map query_pairs
         (dispatched (Demo.server 200 "{}") (Client.fetch_recent_press "k" "us")) =
     [[("country", "us")]]
  /\ forallb (appears_in "US")
             (dispatched (Demo.server 200 "{}") (Client.fetch_recent_press "k" "us")) =
     false
  /\ forallb (appears_in "US")
             (dispatched (Demo.server 200 "{}") (Server.fetch_recent_press_tool "us")) =
     false.
Proof. repeat split; reflexivity. Qed.

(** Month 9 goes out as "09", month 12 as "12". *)
Lemma month_two_digits_witness :
  0 <= 9 <= 99
  /\ dispatched (Demo.server 200 "{}") (Client.fetch_press_releases "k" 2024 9 "US") =
     [mkRequest "https://api-pro.ransomware.live/press/all"
                [("Accept", "application/json"); ("X-API-KEY", "k")]
                (Some [("year", PInt 2024); ("month", PStr "09");
                       ("country", PStr "US")]) 10]
  /\ dispatched (Demo.server 200 "{}")
       (Client.fetch_victims "k" "lockbit" "healthcare" "US" 2024 12) =
     [mkRequest "https://api-pro.ransomware.live/victims/"
                [("Accept", "application/json"); ("X-API-KEY", "k")]
                (Some [("group", PStr "lockbit"); ("sector", PStr "healthcare");
                       ("country", PStr "US"); ("year", PInt 2024);
                       ("month", PStr "12")]) 10].
Proof.
  split; [lia | split].
  - apply (proj1 (month_two_digits (Demo.server 200 "{}")
                    "k" "lockbit" "healthcare" "US" 2024 9)).
    lia.
  - apply (proj1 (month_two_digits (Demo.server 200 "{}")
                    "k" "lockbit" "healthcare" "US" 2024 12)).
    lia.
Defined.

(** Month 100 goes out as "100": three digits, not two. *)
Lemma month_100_three_digits :
  map (query_value "month")
      (dispatched (Demo.server 200 "{}") (Client.fetch_press_releases "k" 2024 100 "US")) =
    [Some "100"]
  /\ map (query_value "month")
         (dispatched (Demo.server 200 "{}")
            (Client.fetch_victims "k" "lockbit" "healthcare" "US" 2024 100)) =
     [Some "100"]
  /\ String.length "100" = 3%nat.
Proof. repeat split; reflexivity. Qed.

(** The IOC type "domain" and a group called "domain" give one request. *)
Lemma fetch_iocs_same_as_group_iocs_witness :
  "domain" <> ""
  /\ Client.fetch_iocs "k" (Some "domain") = Client.fetch_group_iocs "domain" "k" None
  /\ dispatched (Demo.server 200 "{}") (Client.fetch_iocs "k" (Some "domain")) =
     [mkRequest "https://api-pro.ransomware.live/iocs/domain"
                [("Accept", "application/json"); ("X-API-KEY", "k")] None 10].
Proof.
  split; [discriminate |].
  destruct (fetch_iocs_same_as_group_iocs (Demo.server 200 "{}") "k" "domain")
    as (Hsame & _ & Hsent & _).
  - discriminate.
  - split; [exact Hsame | exact Hsent].
Defined.

(** With the empty string the two operations part: /iocs against /iocs/. *)
Example fetch_iocs_empty_type_differs :
  map url (dispatched (Demo.server 200 "{}") (Client.fetch_iocs "k" (Some ""))) =
    ["https://api-pro.ransomware.live/iocs"]
  /\ map url (dispatched (Demo.server 200 "{}") (Client.fetch_group_iocs "" "k" None)) =
     ["https://api-pro.ransomware.live/iocs/"].
Proof. split; reflexivity. Qed.

(** On a network that fails, the request is still sent once and the failure
    reaches the caller. *)
Example unreachable_network :
  run Demo.unreachable (Client.fetch_stats "k") =
  ([mkRequest "https://api-pro.ransomware.live/stats"
              [("Accept", "application/json"); ("X-API-KEY", "k")] None 10],
   inl (RequestException "connection refused")).
Proof. reflexivity. Qed.

(** * Further properties of the client and of the tools *)

Section Further.
Context {rt : Runtime}.

(** [fetch_ransomware_data] carries its own copy of the body of [_get]. *)
Lemma run_fetch_ransomware_data (net : Network) (api_key address : string) :
  run net (Client.fetch_ransomware_data api_key address) =
  let req := mkRequest address
                       [("Accept", "application/json"); ("X-API-KEY", api_key)]
                       None 10 in
  match net req with
  | Failed cause => ([req], inl (RequestException cause))
  | Reply r =>
      ([req],
       if (400 <=? status_code r) && (status_code r <? 600)
       then inl (HTTPError (status_code r) (text r))
       else match json_loads (text r) with
            | Some v => inr v
            | None => inl (ValueError ("Invalid JSON response: " ++ text r))
            end)
  end.
Proof.
  unfold Client.fetch_ransomware_data, requests_get; cbn [bind run].
  destruct (net _) as [cause | r]; [reflexivity |].
  unfold raise_for_status.
  destruct ((400 <=? status_code r) && (status_code r <? 600)); cbn [bind run].
  - reflexivity.
  - destruct (json_loads (text r)); reflexivity.
Qed.

Lemma prefix_append (a b : string) : String.prefix a (a ++ b) = true.
Proof.
  induction a as [| c a IH]; cbn.
  - destruct b; reflexivity.
  - destruct (ascii_dec c c) as [_ | Hne]; [exact IH | congruence].
Qed.

(** X1. [_get] calls [requests.get] once and has no retry: whatever the
    call returns or raises, it is the only call; when it raises a transport
    failure, that failure is what the caller of [_get] gets. *)
Theorem get_calls_library_once (net : Network) (endpoint api_key : string)
    (params : option (list (string * pyval))) :
  calls net (Client._get endpoint api_key params) =
    [mkRequest (Client.BASE_URL ++ endpoint)
               [("Accept", "application/json"); ("X-API-KEY", api_key)]
               params 10]
  /\ forall cause,
       net (mkRequest (Client.BASE_URL ++ endpoint)
                      [("Accept", "application/json"); ("X-API-KEY", api_key)]
                      params 10) = Failed cause ->
       result net (Client._get endpoint api_key params) =
       inl (RequestException cause).
Proof.
  split.
  - apply dispatched_get.
  - intros cause Hnet. unfold result. rewrite run_get. cbv zeta.
    rewrite Hnet. reflexivity.
Qed.

(** X2. [fetch_ransomware_data] on a URL under the base is [_get] on the path
    without a query: same request, same handling of the reply.  Its default
    URL makes it [_get] on /8k. *)
Theorem fetch_ransomware_data_is_get (api_key endpoint : string) :
  Client.fetch_ransomware_data api_key (Client.BASE_URL ++ endpoint) =
    Client._get endpoint api_key None
  /\ Client.fetch_ransomware_data api_key Client.fetch_ransomware_data_default_url =
     Client._get "/8k" api_key None.
Proof. split; reflexivity. Qed.

(** X3. The tool [fetch_ransomware_data_tool] hands its argument to
    [requests.get] as the URL, as it is: the base URL is not put in front, so
    "/8k" is handed over as "/8k", and the credential of the process is in
    the header of the call whatever address the caller names.  When the call
    returns a 2xx reply with a JSON body, the tool returns the decoded
    body. *)
Theorem fetch_ransomware_data_tool_url_argument (net : Network) (address : string) :
  calls net (Server.fetch_ransomware_data_tool address) =
    [mkRequest address
               [("Accept", "application/json"); ("X-API-KEY", API_KEY)] None 10]
  /\ map url (calls net (Server.fetch_ransomware_data_tool "/8k")) = ["/8k"]
  /\ map url (calls net (Server.fetch_ransomware_data_tool "/8k")) <>
     map url (calls net (Client.fetch_ransomware_data API_KEY
                           Client.fetch_ransomware_data_default_url))
  /\ forall r v,
       net (mkRequest address
                      [("Accept", "application/json"); ("X-API-KEY", API_KEY)]
                      None 10) = Reply r ->
       200 <= status_code r < 300 ->
       json_loads (text r) = Some v ->
       result net (Server.fetch_ransomware_data_tool address) = inr v.
Proof.
  unfold Server.fetch_ransomware_data_tool, calls, result.
  rewrite !run_fetch_ransomware_data. cbv zeta.
  split; [| split; [| split]].
  - destruct (net _); reflexivity.
  - destruct (net _); reflexivity.
  - destruct (net _), (net _); discriminate.
  - intros r v Hnet Hst Hbody. rewrite Hnet. cbn [snd].
    assert (Hok : (400 <=? status_code r) && (status_code r <? 600) = false)
      by (apply error_status_false; lia).
    rewrite Hok, Hbody. reflexivity.
Qed.

(** X4. The tools that take an optional filter as a string are the client
    functions on that same string: turning the empty string into [None] at
    the tool changes nothing, since the client treats both alike. *)
Theorem filter_tools_are_client_functions (group ioc_type : string) :
  Server.fetch_iocs_tool ioc_type = Client.fetch_iocs API_KEY (Some ioc_type)
  /\ Server.fetch_group_iocs_tool group ioc_type =
     Client.fetch_group_iocs group API_KEY (Some ioc_type)
  /\ Client.fetch_iocs API_KEY (Some "") = Client.fetch_iocs API_KEY None
  /\ Client.fetch_group_iocs group API_KEY (Some "") =
     Client.fetch_group_iocs group API_KEY None.
Proof.
  unfold Server.fetch_iocs_tool, Server.fetch_group_iocs_tool.
  destruct ioc_type as [| c t]; repeat split; reflexivity.
Qed.

(** Case conversion of ASCII characters, checked on all 256 of them. *)
Lemma case_chars (c : ascii) :
  Py.ascii_lower_char (Py.ascii_upper_char c) = Py.ascii_lower_char c
  /\ Py.ascii_lower_char (Py.ascii_lower_char c) = Py.ascii_lower_char c
  /\ Py.ascii_upper_char (Py.ascii_lower_char c) = Py.ascii_upper_char c
  /\ Py.ascii_upper_char (Py.ascii_upper_char c) = Py.ascii_upper_char c
  /\ (nat_of_ascii (Py.ascii_lower_char c) <? 128)%nat = (nat_of_ascii c <? 128)%nat
  /\ (nat_of_ascii (Py.ascii_upper_char c) <? 128)%nat = (nat_of_ascii c <? 128)%nat.
Proof.
  destruct c as [b0 b1 b2 b3 b4 b5 b6 b7].
  destruct b0, b1, b2, b3, b4, b5, b6, b7; vm_compute; repeat split; reflexivity.
Qed.

Lemma map_chars_twice (f g h : ascii -> ascii) (s : string) :
  (forall c, f (g c) = h c) ->
  Py.map_chars f (Py.map_chars g s) = Py.map_chars h s.
Proof.
  intros Hfg. induction s as [| c s IH]; cbn [Py.map_chars]; [reflexivity |].
  rewrite Hfg, IH. reflexivity.
Qed.

Lemma is_ascii_map_chars (f : ascii -> ascii) (s : string) :
  (forall c, (nat_of_ascii (f c) <? 128)%nat = (nat_of_ascii c <? 128)%nat) ->
  Py.is_ascii (Py.map_chars f s) = Py.is_ascii s.
Proof.
  intros Hf. induction s as [| c s IH]; cbn [Py.is_ascii Py.map_chars];
    [reflexivity |].
  rewrite Hf, IH. reflexivity.
Qed.

Lemma lower_of_cased (s : string) :
  Py.is_ascii s = true ->
  Client.lower (Client.upper s) = Client.lower s
  /\ Client.lower (Client.lower s) = Client.lower s.
Proof.
  intros Hs. unfold Client.lower, Client.upper. rewrite Hs.
  rewrite !is_ascii_map_chars, Hs by (intros c; apply (case_chars c)).
  split; apply map_chars_twice; intros c; apply (case_chars c).
Qed.

Lemma upper_of_cased (s : string) :
  Py.is_ascii s = true ->
  Client.upper (Client.lower s) = Client.upper s
  /\ Client.upper (Client.upper s) = Client.upper s.
Proof.
  intros Hs. unfold Client.lower, Client.upper. rewrite Hs.
  rewrite !is_ascii_map_chars, Hs by (intros c; apply (case_chars c)).
  split; apply map_chars_twice; intros c; apply (case_chars c).
Qed.

(** X5. [fetch_group_data] does not see the case of ASCII letters in the
    group name: the name in upper case, the name in lower case and the name
    as given all lead to the same request. *)
Theorem fetch_group_data_ignores_ascii_case (group_name api_key : string) :
  Py.is_ascii group_name = true ->
  Client.fetch_group_data (Client.upper group_name) api_key =
    Client.fetch_group_data group_name api_key
  /\ Client.fetch_group_data (Client.lower group_name) api_key =
     Client.fetch_group_data group_name api_key.
Proof.
  intros Hascii. unfold Client.fetch_group_data.
  destruct (lower_of_cased group_name Hascii) as [Hup Hlow].
  rewrite Hup, Hlow. split; reflexivity.
Qed.

(** X6. [fetch_csirt_data] does not see the case of ASCII letters in the
    country code. *)
Theorem fetch_csirt_data_ignores_ascii_case (country_code api_key : string) :
  Py.is_ascii country_code = true ->
  Client.fetch_csirt_data (Client.lower country_code) api_key =
    Client.fetch_csirt_data country_code api_key
  /\ Client.fetch_csirt_data (Client.upper country_code) api_key =
     Client.fetch_csirt_data country_code api_key.
Proof.
  intros Hascii. unfold Client.fetch_csirt_data.
  destruct (upper_of_cased country_code Hascii) as [Hlow Hup].
  rewrite Hup, Hlow. split; reflexivity.
Qed.


(** X8. [fetch_recent_victims] reaches the network exactly for the two allowed
    orders; for these it is [_get] on /victims/recent with the order as the
    only query parameter. *)
Theorem fetch_recent_victims_reaches_network (net : Network)
    (api_key order : string) :
  (dispatched net (Client.fetch_recent_victims api_key order) <> []
   <-> order = "discovered" \/ order = "attacked")
  /\ (order = "discovered" \/ order = "attacked" ->
      Client.fetch_recent_victims api_key order =
      Client._get "/victims/recent" api_key (Some [("order", PStr order)])).
Proof.
  unfold Client.fetch_recent_victims.
  destruct (Client.set_mem order Client.valid_orders) eqn:Hmem; cbn [negb].
  - apply set_mem_valid_orders in Hmem. rewrite dispatched_get.
    split; [split; [auto | discriminate] | reflexivity].
  - assert (Hno : ~ (order = "discovered" \/ order = "attacked")).
    { rewrite <- set_mem_valid_orders, Hmem. discriminate. }
    split; [split |]; intros H; [exfalso; apply H; reflexivity | tauto | tauto].
Qed.

(** X9. Path arguments are joined with "/" and never escaped, so a detail
    operation is the list operation on the compound name. *)
Theorem detail_is_list_on_compound_name (group item api_key : string) :
  Client.fetch_negotiation_chat_detail group item api_key =
    Client.fetch_negotiation_group_chats (group ++ "/" ++ item) api_key
  /\ Client.fetch_ransomnote_detail group item api_key =
     Client.fetch_ransomnote_group_list (group ++ "/" ++ item) api_key.
Proof. split; reflexivity. Qed.

(** *** All the tools at once *)

(** A tool either refuses its argument, or is [_get] with the credential of
    the process, or is the tool that takes a whole URL. *)
Lemma invoke_cases (c : Server.tool_call) :
  (exists order msg,
     c = Server.call_fetch_recent_victims order
     /\ order <> "discovered" /\ order <> "attacked"
     /\ Server.invoke c = Raise (ValueError msg))
  \/ (Server.takes_url c = false
      /\ exists endpoint params,
           Server.invoke c = Client._get endpoint API_KEY params)
  \/ (exists address,
        c = Server.call_fetch_ransomware_data address
        /\ Server.invoke c = Client.fetch_ransomware_data API_KEY address).
Proof.
  destruct c; cbn [Server.invoke];
    try (right; left; split; [reflexivity |]; eexists; eexists; reflexivity).
  - right; right. eexists. split; reflexivity.
  - unfold Server.fetch_recent_victims_tool, Client.fetch_recent_victims.
    destruct (Client.set_mem order Client.valid_orders) eqn:Hmem; cbn [negb].
    + right; left. split; [reflexivity |]. eexists; eexists; reflexivity.
    + left. exists order. eexists.
      assert (Hno : ~ (order = "discovered" \/ order = "attacked")).
      { rewrite <- set_mem_valid_orders, Hmem. discriminate. }
      repeat split; try reflexivity; intros H; apply Hno; auto.
Qed.

(** The run of a tool that reaches the network. *)
Lemma run_invoke (net : Network) (c : Server.tool_call) :
  (exists order msg,
     c = Server.call_fetch_recent_victims order
     /\ order <> "discovered" /\ order <> "attacked"
     /\ run net (Server.invoke c) = ([], inl (ValueError msg)))
  \/ (exists req,
        headers req = [("Accept", "application/json"); ("X-API-KEY", API_KEY)]
        /\ timeout req = 10
        /\ (Server.takes_url c = false ->
            String.prefix Client.BASE_URL (url req) = true)
        /\ run net (Server.invoke c) =
           match net req with
           | Failed cause => ([req], inl (RequestException cause))
           | Reply r =>
               ([req],
                if (400 <=? status_code r) && (status_code r <? 600)
                then inl (HTTPError (status_code r) (text r))
                else match json_loads (text r) with
                     | Some v => inr v
                     | None => inl (ValueError ("Invalid JSON response: " ++ text r))
                     end)
           end).
Proof.
  destruct (invoke_cases c)
    as [(order & msg & Hc & Hd & Ha & Hinv)
       | [(Hurl & endpoint & params & Hinv) | (address & Hc & Hinv)]].
  - left. exists order, msg. rewrite Hinv. auto.
  - right. rewrite Hinv, run_get. cbv zeta. eexists.
    split; [| split; [| split; [| reflexivity]]]; try reflexivity.
    intros _. apply prefix_append.
  - right. rewrite Hinv, run_fetch_ransomware_data. cbv zeta. eexists.
    split; [| split; [| split; [| reflexivity]]]; try reflexivity.
    subst c. discriminate.
Qed.

(** X10. A tool call makes at most one call of [requests.get].  It makes
    none exactly when it is [fetch_recent_victims_tool] with an order other
    than "discovered" and "attacked". *)
Theorem tool_calls_library_at_most_once (net : Network) (c : Server.tool_call) :
  (List.length (calls net (Server.invoke c)) <= 1)%nat
  /\ (calls net (Server.invoke c) = []
      <-> exists order,
            c = Server.call_fetch_recent_victims order
            /\ order <> "discovered" /\ order <> "attacked").
Proof.
  unfold calls.
  destruct (run_invoke net c)
    as [(order & msg & Hc & Hd & Ha & Hrun) | (req & _ & _ & _ & Hrun)].
  - rewrite Hrun. cbn. split; [lia |]. split; [| reflexivity].
    intros _. exists order. auto.
  - assert (Hone : fst (run net (Server.invoke c)) = [req])
      by (rewrite Hrun; destruct (net req); reflexivity).
    rewrite Hone. cbn. split; [lia |]. split; [discriminate |].
    intros (order & Hc & Hd & Ha). exfalso.
    subst c. cbn [Server.invoke] in Hone.
    unfold Server.fetch_recent_victims_tool, Client.fetch_recent_victims in Hone.
    destruct (Client.set_mem order Client.valid_orders) eqn:Hmem.
    + apply set_mem_valid_orders in Hmem. tauto.
    + discriminate.
Qed.

(** X11. Every request a tool dispatches carries the two headers, Accept and
    the credential of the process, and the timeout of 10.  Except for the
    tool that takes a whole URL, its URL begins with the base URL. *)
Theorem tool_request_shape (net : Network) (c : Server.tool_call) (r : Request) :
  In r (dispatched net (Server.invoke c)) ->
  headers r = [("Accept", "application/json"); ("X-API-KEY", API_KEY)]
  /\ timeout r = 10
  /\ (Server.takes_url c = false -> String.prefix Client.BASE_URL (url r) = true).
Proof.
  unfold dispatched.
  destruct (run_invoke net c)
    as [(order & msg & _ & _ & _ & Hrun) | (req & Hh & Ht & Hu & Hrun)];
    rewrite Hrun.
  - intros [].
  - assert (Hone : fst match net req with
                       | Failed cause => ([req], inl (RequestException cause))
                       | Reply r0 =>
                           ([req],
                            if (400 <=? status_code r0) && (status_code r0 <? 600)
                            then inl (HTTPError (status_code r0) (text r0))
                            else match json_loads (text r0) with
                                 | Some v => inr v
                                 | None => inl (ValueError
                                     ("Invalid JSON response: " ++ text r0))
                                 end)
                       end = [req])
      by (destruct (net req); reflexivity).
    rewrite Hone. intros [<- | []]. auto.
Qed.

(** X12. Whatever the tool, a 2xx reply to its request with a body that
    decodes as JSON makes the call return the decoded value. *)
Theorem tool_returns_decoded_body (net : Network) (c : Server.tool_call)
    (req : Request) (r : Response) (v : json) :
  dispatched net (Server.invoke c) = [req] ->
  net req = Reply r ->
  200 <= status_code r < 300 ->
  json_loads (text r) = Some v ->
  result net (Server.invoke c) = inr v.
Proof.
  unfold dispatched, result.
  destruct (run_invoke net c)
    as [(order & msg & _ & _ & _ & Hrun) | (req' & _ & _ & _ & Hrun)];
    rewrite Hrun.
  - discriminate.
  - intros Hone Hnet Hst Hbody.
    assert (req' = req) by (destruct (net req'); cbn in Hone; congruence).
    subst req'. rewrite Hnet. cbn [snd].
    assert (Hok : (400 <=? status_code r) && (status_code r <? 600) = false)
      by (apply error_status_false; lia).
    rewrite Hok, Hbody. reflexivity.
Qed.

(** X13. Whatever the tool, the failure of its request is the failure of the
    call: a transport failure, an [HTTPError] for a status from 400 to 599
    whatever the body, a [ValueError] with the text for a body that does not
    decode. *)
Theorem tool_reports_failure (net : Network) (c : Server.tool_call)
    (req : Request) :
  dispatched net (Server.invoke c) = [req] ->
  (forall cause, net req = Failed cause ->
     result net (Server.invoke c) = inl (RequestException cause))
  /\ (forall r, net req = Reply r -> 400 <= status_code r < 600 ->
        result net (Server.invoke c) = inl (HTTPError (status_code r) (text r)))
  /\ (forall r, net req = Reply r -> ~ 400 <= status_code r < 600 ->
        json_loads (text r) = None ->
        result net (Server.invoke c) =
        inl (ValueError ("Invalid JSON response: " ++ text r))).
Proof.
  unfold dispatched, result.
  destruct (run_invoke net c)
    as [(order & msg & _ & _ & _ & Hrun) | (req' & _ & _ & _ & Hrun)];
    rewrite Hrun.
  - discriminate.
  - intros Hone.
    assert (req' = req) by (destruct (net req'); cbn in Hone; congruence).
    subst req'. repeat split.
    + intros cause Hnet. rewrite Hnet. reflexivity.
    + intros r Hnet Hst. rewrite Hnet. cbn [snd].
      apply error_status_spec in Hst. rewrite Hst. reflexivity.
    + intros r Hnet Hst Hbody. rewrite Hnet. cbn [snd].
      apply error_status_false in Hst. rewrite Hst, Hbody. reflexivity.
Qed.

End Further.

(** *** The credential and the request *)

Lemma dispatched_fetch_ransomware_data {rt : Runtime} (net : Network)
    (api_key address : string) :
  dispatched net (Client.fetch_ransomware_data api_key address) =
  [mkRequest address
             [("Accept", "application/json"); ("X-API-KEY", api_key)] None 10].
Proof.
  unfold dispatched. rewrite run_fetch_ransomware_data. cbv zeta.
  destruct (net _); reflexivity.
Qed.

(** X14. The credential travels in the header and nowhere else: with another
    credential in the environment, and whatever the network answers, a tool
    call produces the same URLs, the same query mappings and the same
    timeouts. *)
Theorem credential_only_in_header
    (loads : string -> option json) (lo up : string -> string) (first : bool)
    (key1 key2 : string) (net1 net2 : Network) (c : Server.tool_call) :
  let rt1 := Build_Runtime loads lo up first key1 in
  let rt2 := Build_Runtime loads lo up first key2 in
  map url (dispatched net1 (@Server.invoke rt1 c)) =
    map url (dispatched net2 (@Server.invoke rt2 c))
  /\ map params (dispatched net1 (@Server.invoke rt1 c)) =
     map params (dispatched net2 (@Server.invoke rt2 c))
  /\ map timeout (dispatched net1 (@Server.invoke rt1 c)) =
     map timeout (dispatched net2 (@Server.invoke rt2 c)).
Proof.
  intros rt1 rt2.
  destruct c; cbn [Server.invoke];
    unfold Server.fetch_ransomware_data_tool, Server.fetch_csirt_data_tool,
      Server.fetch_ransomware_groups_tool, Server.fetch_group_data_tool,
      Server.fetch_iocs_tool, Server.fetch_group_iocs_tool,
      Server.get_akira_iocs_tool, Server.fetch_sectors_tool,
      Server.fetch_negotiations_tool, Server.fetch_negotiation_group_chats_tool,
      Server.fetch_negotiation_chat_detail_tool, Server.fetch_press_releases_tool,
      Server.fetch_recent_press_tool, Server.fetch_victims_tool,
      Server.fetch_recent_victims_tool, Server.search_victims_tool,
      Server.fetch_all_victims_tool, Server.fetch_ransomnote_groups_tool,
      Server.fetch_ransomnote_group_list_tool, Server.fetch_ransomnote_detail_tool,
      Server.fetch_stats_tool, Server.validate_api_key_tool,
      Server.fetch_single_victim_tool, Server.fetch_yara_rules_list_tool,
      Server.fetch_yara_rules_detail_tool;
    unfold Client.fetch_csirt_data, Client.fetch_ransomware_groups,
      Client.fetch_group_data, Client.fetch_iocs, Client.fetch_group_iocs,
      Client.get_akira_iocs, Client.fetch_sectors, Client.fetch_negotiations,
      Client.fetch_negotiation_group_chats, Client.fetch_negotiation_chat_detail,
      Client.fetch_press_releases, Client.fetch_recent_press, Client.fetch_victims,
      Client.fetch_recent_victims, Client.search_victims, Client.fetch_all_victims,
      Client.fetch_ransomnote_groups, Client.fetch_ransomnote_group_list,
      Client.fetch_ransomnote_detail, Client.fetch_stats, Client.validate_api_key,
      Client.fetch_single_victim, Client.fetch_yara_rules_list,
      Client.fetch_yara_rules_detail;
    rewrite ?dispatched_get, ?dispatched_fetch_ransomware_data;
    try (repeat split; reflexivity).
  change (@Client.valid_orders rt2) with (@Client.valid_orders rt1).
  destruct (negb (Client.set_mem order Client.valid_orders)).
  - repeat split; reflexivity.
  - rewrite !dispatched_get. repeat split; reflexivity.
Qed.

(** *** The month in the query *)

Lemma read_digits (s : string) (d : Decimal.uint) :
  NilEmpty.uint_of_string s = Some d ->
  s <> "" ->
  DecimalText.read s = Some (Z.of_N (N.of_uint d)).
Proof.
  intros Hs Hne. destruct s as [| c s']; [congruence |].
  unfold DecimalText.read. destruct (Ascii.eqb c "-") eqn:Hc.
  - apply Ascii.eqb_eq in Hc. subst c. cbn in Hs.
    destruct (NilEmpty.uint_of_string s'); discriminate.
  - rewrite Hs. reflexivity.
Qed.

Lemma uint_of_zeros (k : nat) (s : string) (d : Decimal.uint) :
  NilEmpty.uint_of_string s = Some d ->
  exists d', NilEmpty.uint_of_string (Py.zeros k ++ s) = Some d'
             /\ N.of_uint d' = N.of_uint d.
Proof.
  intros Hs. induction k as [| k (d' & Hd' & Heq)]; cbn [Py.zeros append].
  - exists d. auto.
  - exists (Decimal.D0 d'). cbn [NilEmpty.uint_of_string]. rewrite Hd'.
    split; [reflexivity | exact Heq].
Qed.

Lemma uint_of_digits (m : N) :
  exists d, NilEmpty.uint_of_string (NilZero.string_of_uint (N.to_uint m)) = Some d
            /\ N.of_uint d = m
            /\ NilZero.string_of_uint (N.to_uint m) <> "".
Proof.
  pose proof (DecimalN.Unsigned.of_to m) as Hm.
  destruct (N.to_uint m) eqn:E.
  1: { exists Decimal.zero. repeat split; [exact Hm | discriminate]. }
  all: match goal with
       | |- context [NilZero.string_of_uint ?d] =>
           exists d; change (NilZero.string_of_uint d) with (NilEmpty.string_of_uint d);
           rewrite NilEmpty.usu; repeat split; [exact Hm | discriminate]
       end.
Qed.

(** Reading the text written by [0{width}d] gives the number back. *)
Lemma read_format_0d (width : nat) (n : Z) :
  DecimalText.read (Py.format_0d width n) = Some n.
Proof.
  unfold Py.format_0d.
  destruct (uint_of_digits (Z.abs_N n)) as (d & Hd & Hval & Hne).
  destruct (n <? 0) eqn:Hsign.
  - apply Z.ltb_lt in Hsign.
    destruct (uint_of_zeros
                (width - String.length "-"
                 - String.length (NilZero.string_of_uint (N.to_uint (Z.abs_N n))))
                _ d Hd) as (d' & Hd' & Heq).
    cbn [append DecimalText.read]. cbn [Ascii.eqb Bool.eqb].
    rewrite Hd'. cbn [option_map]. rewrite Heq, Hval, N2Z.inj_abs_N.
    f_equal. lia.
  - apply Z.ltb_ge in Hsign.
    destruct (uint_of_zeros
                (width - String.length ""
                 - String.length (NilZero.string_of_uint (N.to_uint (Z.abs_N n))))
                _ d Hd) as (d' & Hd' & Heq).
    cbn [append].
    rewrite (read_digits _ d' Hd').
    + rewrite Heq, Hval, N2Z.inj_abs_N. f_equal. lia.
    + intros Hempty.
      destruct (Py.zeros _); cbn in Hempty; [contradiction | discriminate].
Qed.

(** X15. The month parameter tells months apart: two different integers are
    never written the same way, so [fetch_press_releases] and [fetch_victims]
    send different requests for different months. *)
Theorem month_parameter_distinguishes {rt : Runtime} (net : Network)
    (api_key group sector country : string) (year month1 month2 : Z) :
  month1 <> month2 ->
  Py.format_02d month1 <> Py.format_02d month2
  /\ dispatched net (Client.fetch_press_releases api_key year month1 country) <>
     dispatched net (Client.fetch_press_releases api_key year month2 country)
  /\ dispatched net (Client.fetch_victims api_key group sector country year month1) <>
     dispatched net (Client.fetch_victims api_key group sector country year month2).
Proof.
  intros Hne.
  assert (Hfmt : Py.format_02d month1 <> Py.format_02d month2).
  { intros Heq. apply Hne.
    assert (H : DecimalText.read (Py.format_02d month1) =
                DecimalText.read (Py.format_02d month2)) by (rewrite Heq; reflexivity).
    unfold Py.format_02d in H. rewrite !read_format_0d in H. congruence. }
  unfold Client.fetch_press_releases, Client.fetch_victims.
  rewrite !dispatched_get.
  repeat split; try exact Hfmt; intros Heq; apply Hfmt; congruence.
Qed.

(** *** Evaluation of the further properties *)

Lemma get_calls_library_once_witness :
  Demo.unreachable
    (mkRequest "https://api-pro.ransomware.live/stats"
               [("Accept", "application/json"); ("X-API-KEY", "k")] None 10) =
    Failed "connection refused"
  /\ result Demo.unreachable (Client._get "/stats" "k" None) =
     inl (RequestException "connection refused").
Proof.
  split; [reflexivity |].
  exact (proj2 (get_calls_library_once Demo.unreachable "/stats" "k" None)
           "connection refused" eq_refl).
Defined.

Lemma fetch_ransomware_data_tool_url_argument_witness :
  200 <= 200 < 300
  /\ Demo.loads "[]" = Some (JArray [])
  /\ result (Demo.server 200 "[]")
       (Server.fetch_ransomware_data_tool "https://example.org/feed") =
     inr (JArray []).
Proof.
  split; [lia | split; [reflexivity |]].
  apply (proj2 (proj2 (proj2 (fetch_ransomware_data_tool_url_argument
                                (Demo.server 200 "[]") "https://example.org/feed")))
           (mkResponse 200 "[]") (JArray [])).
  - reflexivity.
  - cbn. lia.
  - reflexivity.
Defined.

Lemma fetch_group_data_ignores_ascii_case_witness :
  Py.is_ascii "LockBit" = true
  /\ Client.fetch_group_data "LOCKBIT" "k" = Client.fetch_group_data "LockBit" "k"
  /\ Client.fetch_group_data "lockbit" "k" = Client.fetch_group_data "LockBit" "k".
Proof.
  split; [reflexivity |].
  exact (fetch_group_data_ignores_ascii_case "LockBit" "k" eq_refl).
Defined.

Lemma fetch_csirt_data_ignores_ascii_case_witness :
  Py.is_ascii "Fr" = true
  /\ Client.fetch_csirt_data "fr" "k" = Client.fetch_csirt_data "Fr" "k"
  /\ Client.fetch_csirt_data "FR" "k" = Client.fetch_csirt_data "Fr" "k".
Proof.
  split; [reflexivity |].
  exact (fetch_csirt_data_ignores_ascii_case "Fr" "k" eq_refl).
Defined.


Lemma fetch_recent_victims_reaches_network_witness :
  ("attacked" = "discovered" \/ "attacked" = "attacked")
  /\ Client.fetch_recent_victims "k" "attacked" =
     Client._get "/victims/recent" "k" (Some [("order", PStr "attacked")])
  /\ dispatched (Demo.server 200 "{}") (Client.fetch_recent_victims "k" "attacked") <> [].
Proof.
  split; [right; reflexivity | split].
  - apply (proj2 (fetch_recent_victims_reaches_network
                    (Demo.server 200 "{}") "k" "attacked")).
    right; reflexivity.
  - apply (proj1 (fetch_recent_victims_reaches_network
                    (Demo.server 200 "{}") "k" "attacked")).
    right; reflexivity.
Defined.

Lemma tool_calls_library_at_most_once_witness :
  "unknown" <> "discovered" /\ "unknown" <> "attacked"
  /\ calls (Demo.server 200 "{}")
       (Server.invoke (Server.call_fetch_recent_victims "unknown")) = [].
Proof.
  split; [discriminate | split; [discriminate |]].
  apply (proj2 (tool_calls_library_at_most_once (Demo.server 200 "{}")
                  (Server.call_fetch_recent_victims "unknown"))).
  exists "unknown". repeat split; discriminate.
Defined.

Lemma tool_request_shape_witness :
  In (mkRequest "https://api-pro.ransomware.live/yara/lockbit"
                [("Accept", "application/json"); ("X-API-KEY", "demo-key")] None 10)
     (dispatched (Demo.server 200 "{}")
        (Server.invoke (Server.call_fetch_yara_rules_detail "lockbit")))
  /\ String.prefix Client.BASE_URL "https://api-pro.ransomware.live/yara/lockbit" = true.
Proof.
  assert (Hin : In (mkRequest "https://api-pro.ransomware.live/yara/lockbit"
                      [("Accept", "application/json"); ("X-API-KEY", "demo-key")]
                      None 10)
                   (dispatched (Demo.server 200 "{}")
                      (Server.invoke (Server.call_fetch_yara_rules_detail "lockbit"))))
    by (left; reflexivity).
  split; [exact Hin |].
  exact (proj2 (proj2 (tool_request_shape (Demo.server 200 "{}")
                         (Server.call_fetch_yara_rules_detail "lockbit") _ Hin))
           eq_refl).
Defined.

Lemma tool_returns_decoded_body_witness :
  200 <= 200 < 300
  /\ Demo.loads "{}" = Some (JObject [])
  /\ result (Demo.server 200 "{}") (Server.invoke Server.call_fetch_stats) =
     inr (JObject []).
Proof.
  split; [lia | split; [reflexivity |]].
  apply (tool_returns_decoded_body (Demo.server 200 "{}") Server.call_fetch_stats
           (mkRequest "https://api-pro.ransomware.live/stats"
                      [("Accept", "application/json"); ("X-API-KEY", "demo-key")]
                      None 10)
           (mkResponse 200 "{}") (JObject [])).
  - reflexivity.
  - reflexivity.
  - cbn. lia.
  - reflexivity.
Defined.

Lemma tool_reports_failure_witness :
  400 <= 404 < 600
  /\ result (Demo.server 404 "{}")
       (Server.invoke (Server.call_fetch_group_data "nobody")) =
     inl (HTTPError 404 "{}")
  /\ result Demo.unreachable (Server.invoke Server.call_validate_api_key) =
     inl (RequestException "connection refused").
Proof.
  split; [lia | split].
  - assert (Hone : dispatched (Demo.server 404 "{}")
                     (Server.invoke (Server.call_fetch_group_data "nobody")) =
                   [mkRequest "https://api-pro.ransomware.live/groups/nobody"
                      [("Accept", "application/json"); ("X-API-KEY", "demo-key")]
                      None 10]) by reflexivity.
    apply (proj1 (proj2 (tool_reports_failure _ _ _ Hone)) (mkResponse 404 "{}")).
    + reflexivity.
    + cbn. lia.
  - assert (Hone : dispatched Demo.unreachable
                     (Server.invoke Server.call_validate_api_key) =
                   [mkRequest "https://api-pro.ransomware.live/validate"
                      [("Accept", "application/json"); ("X-API-KEY", "demo-key")]
                      None 10]) by reflexivity.
    apply (proj1 (tool_reports_failure _ _ _ Hone)).
    reflexivity.
Defined.

Lemma month_parameter_distinguishes_witness :
  1 <> 10
  /\ Py.format_02d 1 <> Py.format_02d 10
  /\ dispatched (Demo.server 200 "{}") (Client.fetch_press_releases "k" 2024 1 "US") <>
     dispatched (Demo.server 200 "{}") (Client.fetch_press_releases "k" 2024 10 "US").
Proof.
  split; [lia |].
  destruct (month_parameter_distinguishes (Demo.server 200 "{}")
              "k" "lockbit" "health" "US" 2024 1 10 ltac:(lia))
    as (Hfmt & Hpress & _).
  split; [exact Hfmt | exact Hpress].
Defined.

(** * The scraper *)

Section Scraping.
Context {rt : Runtime}.

Lemma fetch_get_inv (h : Scraper.Host) (endpoint : string)
    (params : option (list (string * pyval))) (log : list Scraper.event)
    (res : Scraper.failure + json) :
  Scraper.fetch (Client._get endpoint API_KEY params) h = (log, res) ->
  log = [Scraper.Sent (Scraper.api_request endpoint params)]
  /\ forall v, res = inr v -> Scraper.accepted h (Scraper.api_request endpoint params) v.
Proof.
  unfold Scraper.fetch. rewrite run_get. cbv zeta.
  fold (Scraper.api_request endpoint params).
  destruct (Scraper.net h (Scraper.api_request endpoint params)) as [cause | r] eqn:Hnet.
  - intros [= <- <-]. split; [reflexivity | discriminate].
  - destruct ((400 <=? status_code r) && (status_code r <? 600)) eqn:Hst.
    + intros [= <- <-]. split; [reflexivity | discriminate].
    + destruct (json_loads (text r)) as [w |] eqn:Hbody.
      * intros [= <- <-]. split; [reflexivity |].
        intros v [= <-]. exists r. apply error_status_false in Hst. auto.
      * intros [= <- <-]. split; [reflexivity | discriminate].
Qed.

Lemma fetch_recent_victims_attacked (api_key : string) :
  Client.fetch_recent_victims api_key "attacked" =
  Client._get "/victims/recent" api_key (Some [("order", PStr "attacked")]).
Proof.
  unfold Client.fetch_recent_victims.
  assert (Hmem : Client.set_mem "attacked" Client.valid_orders = true)
    by (apply set_mem_valid_orders; auto).
  rewrite Hmem. reflexivity.
Qed.

Lemma print_inv (l : string) (h : Scraper.Host) (log : list Scraper.event)
    (res : Scraper.failure + unit) :
  Scraper.print l h = (log, res) ->
  log = [] /\ (res = inr tt \/ res = inl (Scraper.PrintFailed l)).
Proof.
  unfold Scraper.print. destruct (Scraper.stdout_ok h l); intros [= <- <-]; auto.
Qed.

Lemma dump_inv (p : string) (v : json) (h : Scraper.Host)
    (log : list Scraper.event) (res : Scraper.failure + unit) :
  Scraper.dump p v h = (log, res) ->
  (log = [Scraper.Wrote p v] /\ res = inr tt)
  \/ (log = [] /\ res = inl (Scraper.WriteFailed p)).
Proof.
  unfold Scraper.dump. destruct (Scraper.open_ok h p); intros [= <- <-]; auto.
Qed.

Lemma lift_inv {A : Type} (r : Scraper.failure + A) (h : Scraper.Host)
    (log : list Scraper.event) (res : Scraper.failure + A) :
  Scraper.lift r h = (log, res) -> log = [] /\ r = res.
Proof. unfold Scraper.lift. intros [= <- <-]. auto. Qed.

Lemma or_else_inv (a : json) (b : Scraper.failure + json) (h : Scraper.Host)
    (log : list Scraper.event) (res : Scraper.failure + json) :
  Scraper.or_else a b h = (log, res) -> log = [].
Proof.
  unfold Scraper.or_else. destruct (Scraper.truthy h a); intros [= <- _]; auto.
Qed.

Ltac inv_step E :=
  lazymatch type of E with
  | Scraper.print _ _ = _ =>
      apply print_inv in E; destruct E as [-> [E | E]]; try discriminate E
  | Scraper.dump _ _ _ = _ =>
      apply dump_inv in E; destruct E as [[-> E] | [-> E]]; try discriminate E
  | Scraper.lift _ _ = _ =>
      apply lift_inv in E; destruct E as [-> E]
  | Scraper.or_else _ _ _ = _ =>
      apply or_else_inv in E; rewrite E; clear E
  | Scraper.fetch _ _ = _ =>
      let Hacc := fresh "Hacc" in
      apply fetch_get_inv in E; destruct E as [-> Hacc];
      first [ specialize (Hacc _ eq_refl) | clear Hacc ]
  end.

Ltac step h :=
  lazymatch goal with
  | |- context [@Scraper.seq ?A ?B ?m ?k h] =>
      let E := fresh "E" in
      let log := fresh "log" in
      let f := fresh "f" in
      let a := fresh "a" in
      change (@Scraper.seq A B m k h) with
        (match m h with
         | (l, inl x) => (l, inl x)
         | (l, inr y) =>
             match k y h with
             | (l', res) => ((l ++ l')%list, res)
             end
         end);
      lazymatch m with
      | (fun _ => _) => cbv beta
      | _ => destruct (m h) as [log [f | a]] eqn:E; inv_step E; cbv beta iota
      end
  | |- context [Scraper.has_data h ?g] =>
      let Hd := fresh "Hdata" in
      destruct (Scraper.has_data h g) eqn:Hd
  | |- context [Scraper.dump ?p ?v h] =>
      let E := fresh "E" in
      let log := fresh "log" in
      let f := fresh "f" in
      let a := fresh "a" in
      destruct (Scraper.dump p v h) as [log [f | a]] eqn:E; inv_step E; cbv beta iota
  | |- context [Scraper.print ?l h] =>
      let E := fresh "E" in
      let log := fresh "log" in
      let f := fresh "f" in
      let a := fresh "a" in
      destruct (Scraper.print l h) as [log [f | a]] eqn:E; inv_step E; cbv beta iota
  end.

Ltac follow :=
  cbn [fst snd app]; unfold Scraper.plan;
  repeat first [ apply Scraper.follows_stop
               | apply Scraper.follows_sent
               | (apply Scraper.follows_wrote; [assumption |]) ].

Ltac group_facts :=
  intros _;
  match goal with
  | H : Scraper.lower_of ?x = inr _ |- _ =>
      destruct x; try discriminate H; injection H as <-
  end;
  eauto 10.

Ltac finish :=
  split; [follow | split];
  [ cbn [fst snd];
    first [ discriminate
          | match goal with
            | |- (if ?c then _ else _) = _ -> _ => destruct c; discriminate
            end
          | intros _; cbn; auto ]
  | cbn [fst snd app List.length];
    first [ intros Hlen; exfalso; lia | group_facts ] ].

Ltac leaf := first [ solve [exists ""; finish] | solve [eexists; finish] ].

(** Every run of the block follows the plan; a run that completes has logged
    sixteen or twenty events; a run that logs more than sixteen has read the
    name of the first group out of the groups reply. *)
Lemma main_follows (h : Scraper.Host) :
  exists g,
    Scraper.follows h (Scraper.plan g) (fst (Scraper.main h))
    /\ (snd (Scraper.main h) = Scraper.Complete ->
        List.length (fst (Scraper.main h)) = 16%nat
        \/ List.length (fst (Scraper.main h)) = 20%nat)
    /\ ((16 < List.length (fst (Scraper.main h)))%nat ->
        exists groups data name,
          Scraper.accepted h (Scraper.api_request "/groups" None) groups
          /\ Scraper.has_data h groups = Some data
          /\ Scraper.first_name data = inr (JString name)
          /\ g = Client.lower name).
Proof.
  unfold Scraper.main.
  destruct (Scraper.makedirs_ok h); [| leaf].
  unfold Scraper.body, Scraper.first_group.
  unfold Client.validate_api_key, Client.fetch_stats, Client.fetch_ransomware_groups,
    Client.fetch_sectors, Client.fetch_all_victims, Client.fetch_negotiations,
    Client.fetch_yara_rules_list, Client.fetch_group_data, Client.fetch_group_iocs.
  rewrite fetch_recent_victims_attacked.
  cbn [Py.truthy].
  repeat (step h).
  all: leaf.
Qed.

Lemma log_length (log : list Scraper.event) :
  List.length log =
  (List.length (Scraper.requests log) + List.length (Scraper.files log))%nat.
Proof.
  induction log as [| [r | path v] log IH]; cbn; lia.
Qed.

Lemma follows_order (h : Scraper.Host) (todo : list (Request * string))
    (log : list Scraper.event) :
  Scraper.follows h todo log ->
  Scraper.requests log =
    firstn (List.length (Scraper.requests log)) (map fst todo)
  /\ map fst (Scraper.files log) =
     firstn (List.length (Scraper.files log)) (map snd todo)
  /\ (List.length (Scraper.files log) <= List.length (Scraper.requests log)
      <= S (List.length (Scraper.files log)))%nat.
Proof.
  induction 1 as [todo | req path todo | req path v todo log Hacc Hlog IH]; cbn.
  - repeat split; lia.
  - repeat split; lia.
  - destruct IH as (Hreq & Hfiles & Hlen).
    rewrite <- Hreq, <- Hfiles. repeat split; lia.
Qed.

Lemma follows_files (h : Scraper.Host) (todo : list (Request * string))
    (log : list Scraper.event) :
  Scraper.follows h todo log ->
  forall path v, In (path, v) (Scraper.files log) ->
  exists req, In (req, path) todo /\ In req (Scraper.requests log)
              /\ Scraper.accepted h req v.
Proof.
  induction 1 as [todo | req path todo | req path v todo log Hacc Hlog IH];
    cbn; intros p w Hin; try contradiction.
  destruct Hin as [[= <- <-] | Hin].
  - exists req. auto.
  - destruct (IH p w Hin) as (req' & Htodo & Hreq & Hacc').
    exists req'. auto.
Qed.

Lemma follows_earlier (h : Scraper.Host) (todo : list (Request * string))
    (log : list Scraper.event) :
  Scraper.follows h todo log ->
  forall req, In req (removelast (Scraper.requests log)) ->
  exists v, Scraper.accepted h req v.
Proof.
  induction 1 as [todo | req path todo | req path v todo log Hacc Hlog IH];
    cbn [Scraper.requests]; intros q Hin; try contradiction.
  destruct (Scraper.requests log) as [| r rest] eqn:Hreqs.
  - contradiction.
  - cbn [removelast] in Hin. destruct Hin as [<- | Hin].
    + exists v. exact Hacc.
    + apply IH. exact Hin.
Qed.

Lemma accepted_result (h : Scraper.Host) (endpoint : string)
    (params : option (list (string * pyval))) (v : json) :
  Scraper.accepted h (Scraper.api_request endpoint params) v ->
  result (Scraper.net h) (Client._get endpoint API_KEY params) = inr v.
Proof.
  intros (r & Hnet & Hst & Hbody).
  unfold result. rewrite run_get. cbv zeta.
  fold (Scraper.api_request endpoint params). rewrite Hnet. cbn [snd].
  apply error_status_false in Hst. rewrite Hst, Hbody. reflexivity.
Qed.

(** X16. The run of the block follows the plan of the source: the requests
    dispatched are the first ones of the plan, in order; the files written
    are the first ones of the plan, in order; and there are as many files as
    requests, or one less. *)
Theorem scraper_follows_plan (h : Scraper.Host) :
  exists group_name,
    Scraper.requests (fst (Scraper.main h)) =
      firstn (List.length (Scraper.requests (fst (Scraper.main h))))
             (map fst (Scraper.plan group_name))
    /\ map fst (Scraper.files (fst (Scraper.main h))) =
       firstn (List.length (Scraper.files (fst (Scraper.main h))))
              (map snd (Scraper.plan group_name))
    /\ (List.length (Scraper.files (fst (Scraper.main h)))
        <= List.length (Scraper.requests (fst (Scraper.main h)))
        <= S (List.length (Scraper.files (fst (Scraper.main h)))))%nat.
Proof.
  destruct (main_follows h) as (g & Hfollows & _).
  exists g. apply (follows_order h _ _ Hfollows).
Qed.

(** X17. The block stops at the first failure: every request but the last
    one dispatched got a reply that the client accepted, with a status that
    is not an error status and a body that decodes. *)
Theorem scraper_stops_at_first_failure (h : Scraper.Host) (req : Request) :
  In req (removelast (Scraper.requests (fst (Scraper.main h)))) ->
  exists r v,
    Scraper.net h req = Reply r
    /\ ~ 400 <= status_code r < 600
    /\ json_loads (text r) = Some v.
Proof.
  intros Hin.
  destruct (main_follows h) as (g & Hfollows & _).
  destruct (follows_earlier h _ _ Hfollows req Hin) as (v & r & Hr).
  exists r, v. exact Hr.
Qed.

(** X18. Every file written holds the decoded body of the reply to a request
    of this run, as the client returned it. *)
Theorem scraper_files_hold_replies (h : Scraper.Host) (path : string) (v : json) :
  In (path, v) (Scraper.files (fst (Scraper.main h))) ->
  exists req r,
    In req (Scraper.requests (fst (Scraper.main h)))
    /\ Scraper.net h req = Reply r
    /\ ~ 400 <= status_code r < 600
    /\ json_loads (text r) = Some v.
Proof.
  intros Hin.
  destruct (main_follows h) as (g & Hfollows & _).
  destruct (follows_files h _ _ Hfollows path v Hin) as (req & _ & Hreq & r & Hr).
  exists req, r. auto.
Qed.

(** X19. A run that completes without an exception has dispatched eight
    requests, or ten with the two for the first group, and has written one
    file for each. *)
Theorem scraper_complete_run (h : Scraper.Host) :
  snd (Scraper.main h) = Scraper.Complete ->
  (List.length (Scraper.requests (fst (Scraper.main h))) = 8%nat
   \/ List.length (Scraper.requests (fst (Scraper.main h))) = 10%nat)
  /\ List.length (Scraper.files (fst (Scraper.main h))) =
     List.length (Scraper.requests (fst (Scraper.main h))).
Proof.
  intros Hdone.
  destruct (main_follows h) as (g & Hfollows & Hlen & _).
  specialize (Hlen Hdone).
  destruct (follows_order h _ _ Hfollows) as (_ & _ & Hbal).
  rewrite log_length in Hlen. lia.
Qed.

(** X20. When the call that validates the key fails, for whatever reason,
    the run goes no further: no request other than the validation is
    dispatched and no file is written. *)
Theorem scraper_needs_valid_key (h : Scraper.Host) (e : exn) :
  result (Scraper.net h) (Client.validate_api_key API_KEY) = inl e ->
  (Scraper.requests (fst (Scraper.main h)) = []
   \/ Scraper.requests (fst (Scraper.main h)) =
      [Scraper.api_request "/validate" None])
  /\ Scraper.files (fst (Scraper.main h)) = [].
Proof.
  intros Hfail.
  destruct (main_follows h) as (g & Hfollows & _).
  unfold Scraper.plan in Hfollows.
  remember (fst (Scraper.main h)) as log eqn:Hlog. clear Hlog.
  inversion Hfollows as [todo | req path todo | req path v todo rest Hacc Hrest];
    subst; cbn [Scraper.requests Scraper.files].
  - auto.
  - auto.
  - apply accepted_result in Hacc.
    unfold Client.validate_api_key in Hfail. congruence.
Qed.

(** X21. A ninth request is dispatched only when the groups reply is an
    object whose "data" is a list that starts with an object whose "name" is a
    string.  It goes to /groups/ followed by that name in lower case, and a
    tenth request goes to /iocs/ followed by the name in lower case. *)
Theorem scraper_group_requests (h : Scraper.Host) :
  (8 < List.length (Scraper.requests (fst (Scraper.main h))))%nat ->
  exists members items first name,
    Scraper.accepted h (Scraper.api_request "/groups" None) (JObject members)
    /\ Scraper.lookup "data" members = Some (JArray (JObject first :: items))
    /\ Scraper.lookup "name" first = Some (JString name)
    /\ nth_error (Scraper.requests (fst (Scraper.main h))) 8 =
       Some (Scraper.api_request
               ("/groups/" ++ Client.lower (Client.lower name)) None)
    /\ forall req, nth_error (Scraper.requests (fst (Scraper.main h))) 9 = Some req ->
                   req = Scraper.api_request ("/iocs/" ++ Client.lower name) None.
Proof.
  intros Hmany.
  destruct (main_follows h) as (g & Hfollows & _ & Hgroup).
  destruct (follows_order h _ _ Hfollows) as (Hreqs & _ & Hbal).
  assert (Hlog : (16 < List.length (fst (Scraper.main h)))%nat)
    by (rewrite log_length; lia).
  destruct (Hgroup Hlog) as (groups & data & name & Hacc & Hdata & Hname & ->).
  unfold Scraper.has_data in Hdata.
  destruct groups as [| | | | | members]; try discriminate.
  destruct (Scraper.lookup "data" members) as [d |] eqn:Hlook; [| discriminate].
  destruct (Scraper.truthy h d); [| discriminate].
  injection Hdata as ->.
  unfold Scraper.first_name in Hname.
  destruct data as [| | | s | [| [| | | | | first] items] | ms]; try discriminate.
  - destruct (String.eqb s ""); discriminate.
  - destruct (Scraper.lookup "name" first) as [n |] eqn:Hn; [| discriminate].
    injection Hname as ->.
    exists members, items, first, name.
    split; [exact Hacc | split; [exact Hlook | split; [exact Hn |]]].
    rewrite Hreqs.
    destruct (List.length (Scraper.requests (fst (Scraper.main h))))
      as [| [| [| [| [| [| [| [| [| [| n]]]]]]]]]]; try lia.
    + split; [reflexivity |]. cbn. discriminate.
    + split; [reflexivity |]. cbn. intros req [= <-]. reflexivity.
Qed.

End Scraping.

(** *** Evaluation of the scraper *)

Lemma scraper_stops_at_first_failure_witness :
  exists r v,
    Demo.site (@Scraper.api_request Demo.scraper_runtime "/groups" None) = Reply r
    /\ ~ 400 <= status_code r < 600
    /\ Demo.scraper_loads (text r) = Some v.
Proof.
  apply (@scraper_stops_at_first_failure Demo.scraper_runtime (Demo.host Demo.site)
           (@Scraper.api_request Demo.scraper_runtime "/groups" None)).
  vm_compute. right; right; left. reflexivity.
Defined.

Lemma scraper_files_hold_replies_witness :
  exists req r,
    In req (Scraper.requests
              (fst (@Scraper.main Demo.scraper_runtime (Demo.host Demo.site))))
    /\ Demo.site req = Reply r
    /\ ~ 400 <= status_code r < 600
    /\ Demo.scraper_loads (text r) = Some (JObject []).
Proof.
  apply (@scraper_files_hold_replies Demo.scraper_runtime (Demo.host Demo.site)
           "scraped_data/stats.json" (JObject [])).
  vm_compute. right; left. reflexivity.
Defined.

Lemma scraper_complete_run_witness :
  snd (@Scraper.main Demo.scraper_runtime (Demo.host Demo.site)) = Scraper.Complete
  /\ List.length (Scraper.files
                    (fst (@Scraper.main Demo.scraper_runtime (Demo.host Demo.site)))) =
     List.length (Scraper.requests
                    (fst (@Scraper.main Demo.scraper_runtime (Demo.host Demo.site)))).
Proof.
  assert (Hdone : snd (@Scraper.main Demo.scraper_runtime (Demo.host Demo.site)) =
                  Scraper.Complete) by (vm_compute; reflexivity).
  split; [exact Hdone |].
  exact (proj2 (@scraper_complete_run Demo.scraper_runtime (Demo.host Demo.site) Hdone)).
Defined.

Lemma scraper_needs_valid_key_witness :
  result (Demo.server 401 "{}")
    (@Client.validate_api_key Demo.scraper_runtime "demo-key") =
    inl (HTTPError 401 "{}")
  /\ Scraper.files
       (fst (@Scraper.main Demo.scraper_runtime (Demo.host (Demo.server 401 "{}")))) = [].
Proof.
  assert (Hfail : result (Demo.server 401 "{}")
                    (@Client.validate_api_key Demo.scraper_runtime "demo-key") =
                  inl (HTTPError 401 "{}")) by reflexivity.
  split; [exact Hfail |].
  exact (proj2 (@scraper_needs_valid_key Demo.scraper_runtime
                  (Demo.host (Demo.server 401 "{}")) _ Hfail)).
Defined.

Lemma scraper_group_requests_witness :
  (8 < List.length
         (Scraper.requests
            (fst (@Scraper.main Demo.scraper_runtime (Demo.host Demo.site)))))%nat
  /\ exists members items first name,
       Scraper.accepted (rt := Demo.scraper_runtime) (Demo.host Demo.site)
         (@Scraper.api_request Demo.scraper_runtime "/groups" None) (JObject members)
       /\ Scraper.lookup "data" members = Some (JArray (JObject first :: items))
       /\ Scraper.lookup "name" first = Some (JString name).
Proof.
  assert (Hmany : (8 < List.length
                         (Scraper.requests
                            (fst (@Scraper.main Demo.scraper_runtime
                                    (Demo.host Demo.site)))))%nat)
    by (vm_compute; lia).
  split; [exact Hmany |].
  destruct (@scraper_group_requests Demo.scraper_runtime (Demo.host Demo.site) Hmany)
    as (members & items & first & name & Hacc & Hdata & Hname & _).
  exists members, items, first, name. auto.
Defined.

(** The run on the demonstration server: twenty events, ten requests, the
    last two for the group of the groups reply. *)
Example scraper_run :
  map url (Scraper.requests
             (fst (@Scraper.main Demo.scraper_runtime (Demo.host Demo.site)))) =
    ["https://api-pro.ransomware.live/validate";
     "https://api-pro.ransomware.live/stats";
     "https://api-pro.ransomware.live/groups";
     "https://api-pro.ransomware.live/listsectors";
     "https://api-pro.ransomware.live/victims/recent";
     "https://api-pro.ransomware.live/victims/search";
     "https://api-pro.ransomware.live/negotiations";
     "https://api-pro.ransomware.live/yara";
     "https://api-pro.ransomware.live/groups/lockbit";
     "https://api-pro.ransomware.live/iocs/lockbit"]
  /\ map fst (Scraper.files
                (fst (@Scraper.main Demo.scraper_runtime (Demo.host Demo.site)))) =
     ["scraped_data/validate.json"; "scraped_data/stats.json";
      "scraped_data/groups.json"; "scraped_data/sectors.json";
      "scraped_data/recent_victims.json"; "scraped_data/all_victims.json";
      "scraped_data/negotiations.json"; "scraped_data/yara_list.json";
      "scraped_data/group_lockbit.json"; "scraped_data/iocs_lockbit.json"].
Proof. split; vm_compute; reflexivity. Qed.

(** * The session URL of the test client *)

Section SessionSearch.
Variable utf8_ok : string -> bool.

Lemma prefix_drop (p s : string) :
  String.prefix p s = true -> s = p ++ McpTest.drop (String.length p) s.
Proof.
  revert s. induction p as [| c p IH]; intros s Hp; cbn.
  - destruct s; reflexivity.
  - destruct s as [| d s]; cbn in Hp; [discriminate |].
    destruct (ascii_dec c d) as [<- | _]; [| discriminate].
    cbn. f_equal. apply IH. exact Hp.
Qed.

Lemma prefix_of_append (p t : string) : String.prefix p (p ++ t) = true.
Proof.
  induction p as [| c p IH]; cbn.
  - destruct t; reflexivity.
  - destruct (ascii_dec c c) as [_ | Hne]; [exact IH | congruence].
Qed.

Lemma session_url_prefix (data : string) :
  String.prefix "/messages/" data = true ->
  String.prefix "http://localhost:23001/messages/" (McpTest.server_url ++ data) = true.
Proof.
  intros Hpath. rewrite (prefix_drop _ _ Hpath).
  generalize (McpTest.drop (String.length "/messages/") data). intros t.
  exact (prefix_of_append "http://localhost:23001/messages/" t).
Qed.

(** X24. When the search finds a session URL, the stream has a line
    "data: " followed by a path that begins with "/messages/"; the URL is the
    server URL followed by that path; the line decoded; and before that line
    nothing was found and nothing failed. *)
Theorem session_url_origin (lines : list string) (ending : McpTest.stream_end)
    (u : string) :
  McpTest.find_session utf8_ok lines ending = McpTest.Found u ->
  exists before data after,
    lines = (before ++ ("data: " ++ data)%string :: after)%list
    /\ String.prefix "/messages/" data = true
    /\ utf8_ok ("data: " ++ data) = true
    /\ u = McpTest.server_url ++ data
    /\ String.prefix "http://localhost:23001/messages/" u = true
    /\ McpTest.find_session utf8_ok before McpTest.Closed = McpTest.NotFound.
Proof.
  induction lines as [| line rest IH]; cbn [McpTest.find_session].
  - destruct ending; discriminate.
  - destruct (String.eqb line "") eqn:Hempty.
    + intros Hfound.
      destruct (IH Hfound) as (before & data & after & -> & Hp & Hok & Hu & Hpu & Hb).
      exists (line :: before), data, after.
      cbn [McpTest.find_session app]. rewrite Hempty. auto 10.
    + destruct (utf8_ok line) eqn:Hok; cbn [negb]; [| discriminate].
      destruct (String.prefix "data: " line) eqn:Hdata.
      * destruct (String.prefix "/messages/" (McpTest.drop 6 line)) eqn:Hpath.
        -- intros Hfound.
           assert (Hu : u = McpTest.server_url ++ McpTest.drop 6 line) by congruence.
           pose proof (prefix_drop "data: " line Hdata) as Hline.
           change (String.length "data: ") with 6%nat in Hline.
           exists [], (McpTest.drop 6 line), rest.
           rewrite <- Hline.
           split; [reflexivity |].
           split; [exact Hpath |].
           split; [exact Hok |].
           split; [exact Hu |].
           split; [rewrite Hu; apply session_url_prefix; exact Hpath | reflexivity].
        -- intros Hfound.
           destruct (IH Hfound)
             as (before & data & after & -> & Hp & Hok' & Hu & Hpu & Hb).
           exists (line :: before), data, after.
           cbn [McpTest.find_session app].
           rewrite Hempty, Hok, Hdata, Hpath. cbn [negb]. auto 10.
      * intros Hfound.
        destruct (IH Hfound)
          as (before & data & after & -> & Hp & Hok' & Hu & Hpu & Hb).
        exists (line :: before), data, after.
        cbn [McpTest.find_session app].
        rewrite Hempty, Hok, Hdata. cbn [negb]. auto 10.
Qed.

(** X25. The search stops at the first announcement: once the lines before
    it have been passed, a line "data: " with a path that begins with
    "/messages/" gives the session URL whatever comes after it and however
    the stream ends. *)
Theorem session_search_stops (before after : list string) (data : string)
    (ending : McpTest.stream_end) :
  McpTest.find_session utf8_ok before McpTest.Closed = McpTest.NotFound ->
  utf8_ok ("data: " ++ data) = true ->
  String.prefix "/messages/" data = true ->
  McpTest.find_session utf8_ok (before ++ ("data: " ++ data)%string :: after)%list ending =
  McpTest.Found (McpTest.server_url ++ data).
Proof.
  intros Hbefore Hok Hpath.
  induction before as [| line before IH]; cbn [app McpTest.find_session].
  - change (String.eqb ("data: " ++ data) "") with false.
    rewrite Hok. cbn [negb].
    rewrite (prefix_of_append "data: " data).
    change (McpTest.drop 6 ("data: " ++ data)) with data.
    rewrite Hpath. reflexivity.
  - cbn [McpTest.find_session] in Hbefore.
    destruct (String.eqb line ""); [auto |].
    destruct (utf8_ok line); cbn [negb] in *; [| discriminate].
    destruct (String.prefix "data: " line); [| auto].
    destruct (String.prefix "/messages/" (McpTest.drop 6 line)); [discriminate | auto].
Qed.

End SessionSearch.

Lemma session_url_origin_witness :
  exists before data after,
    [""; "event: endpoint"; "data: /messages/?session_id=42"; "garbage"] =
      (before ++ ("data: " ++ data)%string :: after)%list
    /\ String.prefix "/messages/" data = true
    /\ "http://localhost:23001/messages/?session_id=42" = McpTest.server_url ++ data.
Proof.
  destruct (session_url_origin (fun _ => true)
              [""; "event: endpoint"; "data: /messages/?session_id=42"; "garbage"]
              McpTest.Broken "http://localhost:23001/messages/?session_id=42"
              eq_refl)
    as (before & data & after & Hlines & Hpath & _ & Hu & _).
  exists before, data, after. auto.
Defined.

Lemma session_search_stops_witness :
  McpTest.find_session (fun line => negb (String.eqb line "garbage"))
    ["event: endpoint"; "data: /messages/?session_id=42"; "garbage"]
    McpTest.Broken =
  McpTest.Found "http://localhost:23001/messages/?session_id=42".
Proof.
  exact (session_search_stops (fun line => negb (String.eqb line "garbage"))
           ["event: endpoint"] ["garbage"] "/messages/?session_id=42"
           McpTest.Broken eq_refl eq_refl eq_refl).
Defined.

(** * Two more facts about the client *)

Section Remainder.
Context {rt : Runtime}.

(** X22. Whatever the integer, the month that [fetch_press_releases] and
    [fetch_victims] put in the query is a text of two characters or more. *)
Theorem month_parameter_length (net : Network)
    (api_key group sector country : string) (year month : Z) :
  exists written,
    (2 <= String.length written)%nat
    /\ map (query_value "month")
           (dispatched net (Client.fetch_press_releases api_key year month country)) =
       [Some written]
    /\ map (query_value "month")
           (dispatched net
              (Client.fetch_victims api_key group sector country year month)) =
       [Some written].
Proof.
  exists (Py.format_02d month).
  split; [apply format_02d_length |].
  unfold Client.fetch_press_releases, Client.fetch_victims.
  rewrite !dispatched_get. split; reflexivity.
Qed.

(** X23. The module defines [fetch_recent_victims] and [fetch_all_victims]
    twice.  In each pair the earlier definition and the one that replaces it
    behave alike on every network: same requests, same outcome. *)
Theorem rebinding_changes_nothing (net : Network) (api_key order : string) :
  run net (Client.fetch_recent_victims_first api_key order) =
    run net (Client.fetch_recent_victims api_key order)
  /\ run net (Client.fetch_all_victims_first api_key) =
     run net (Client.fetch_all_victims api_key).
Proof.
  destruct rebound_definitions_agree as [Hrecent Hall].
  rewrite Hrecent, Hall. split; reflexivity.
Qed.

End Remainder.
